(** * server.js: the code-gated exchange server, embedded in Rocq

    The file follows [src/server.js] from top to bottom: the JavaScript
    values and numbers the handlers compute with, the two Mongoose
    schemas, [generateCode], the store operations a handler awaits, and
    the route handlers.  The theorems come after all the definitions. *)

From Stdlib Require Import ZArith Lia Bool List Ascii String.
From Stdlib.Strings Require Byte.
From stdpp Require Import gmap strings list fin_maps.

Local Open Scope Z_scope.

(** ** JavaScript numbers

    A finite non-negative double is an integer multiple of [2^-1074] whose
    significand fits in 53 bits.  A number is kept as that integer
    multiple, so the number 1 is [2^1074].  Only non-negative values
    below [2^1024] occur in [generateCode]; overflow is absent from the
    model. *)

Definition emin : Z := 1074.
Definition prec : Z := 53.

Definition Number_of_int (k : Z) : Z := k * 2 ^ emin.

(** [rne n s]: the quotient of [n] by [2^s], rounded to nearest, ties to
    the even quotient. *)
Definition rne (n s : Z) : Z :=
  let q := n / 2 ^ s in
  let r := n mod 2 ^ s in
  let half := 2 ^ (s - 1) in
  if s <=? 0 then n
  else if (half <? r) || ((r =? half) && Z.odd q) then q + 1 else q.

(** [round_double n e] rounds the exact value [n * 2^-(1074+e)] to a double
    (IEEE 754 round to nearest even, subnormals included) and returns it
    in units of [2^-1074]. *)
Definition round_double (n e : Z) : Z :=
  let s := Z.max (Z.log2 n + 1 - prec) e in
  rne n s * 2 ^ (s - e).

Definition is_double (x : Z) : Prop := 0 <= x /\ round_double x 0 = x.

Definition fmul (a b : Z) : Z := round_double (a * b) emin.
Definition fadd (a b : Z) : Z := round_double (a + b) 0.

(** [Math.floor] of a non-negative number, as an integer. *)
Definition Math_floor (x : Z) : Z := x / 2 ^ emin.

(** A value [Math.random()] can return: a double in [[0, 1)]. *)
Definition is_random (r : Z) : Prop := is_double r /\ r < Number_of_int 1.

(** ** Strings *)

Definition digit_char (d : Z) : ascii :=
  ascii_of_nat (48 + Z.to_nat d).

Fixpoint digits_from (fuel : nat) (n : Z) (acc : string) : string :=
  match fuel with
  | O => acc
  | S fuel' =>
      let acc' := String (digit_char (n mod 10)) acc in
      if n <? 10 then acc' else digits_from fuel' (n / 10) acc'
  end.

(** [Number.prototype.toString] on a non-negative integer (below 1e21,
    where JavaScript prints plain decimal digits). *)
Definition Number_toString (n : Z) : string :=
  digits_from (S (Z.to_nat (Z.log2 n))) n EmptyString.

Definition is_digit (c : ascii) : bool :=
  let k := nat_of_ascii c in (48 <=? k)%nat && (k <=? 57)%nat.

Definition digit_value (c : ascii) : Z := Z.of_nat (nat_of_ascii c) - 48.

Fixpoint all_digits (s : string) : bool :=
  match s with
  | EmptyString => true
  | String c s' => is_digit c && all_digits s'
  end.

(** The number a string of decimal digits denotes. *)
Fixpoint decimal_value_from (acc : Z) (s : string) : Z :=
  match s with
  | EmptyString => acc
  | String c s' => decimal_value_from (10 * acc + digit_value c) s'
  end.

Definition decimal_value (s : string) : Z := decimal_value_from 0 s.

(** ** [generateCode] (server.js, lines 59-61)

    [Math.floor(100000 + Math.random() * 900000).toString()], with the
    value of [Math.random()] passed in as [r]. *)
Definition generateCode (r : Z) : string :=
  Number_toString
    (Math_floor (fadd (Number_of_int 100000) (fmul r (Number_of_int 900000)))).

(** A string is a sequence of code units below 256; a text with a code
    unit above 255 is outside the model.

    [String.prototype.toUpperCase].  Only the ASCII letters change case
    here; JavaScript also changes letters above 127, which no code made
    by [generateCode] contains. *)
Definition upper_char (c : ascii) : ascii :=
  let k := nat_of_ascii c in
  if (97 <=? k)%nat && (k <=? 122)%nat then ascii_of_nat (k - 32) else c.

Fixpoint toUpperCase (s : string) : string :=
  match s with
  | EmptyString => EmptyString
  | String c s' => String (upper_char c) (toUpperCase s')
  end.

(** [parseInt(s)] without a radix: leading white space, an optional sign,
    an optional [0x] prefix, then the longest run of digits.  [None] is
    [NaN].  The integer is kept exact.  White space is the code units 9
    to 13, 32 and 160 (the no-break space); the other white space of
    JavaScript lies above 255. *)
Definition is_whitespace (c : ascii) : bool :=
  let k := nat_of_ascii c in
  ((9 <=? k)%nat && (k <=? 13)%nat) || (k =? 32)%nat || (k =? 160)%nat.

Fixpoint skip_whitespace (s : string) : string :=
  match s with
  | String c s' => if is_whitespace c then skip_whitespace s' else s
  | EmptyString => EmptyString
  end.

Definition digit_in_radix (radix : Z) (c : ascii) : option Z :=
  let k := Z.of_nat (nat_of_ascii c) in
  let d := if (48 <=? k) && (k <=? 57) then Some (k - 48)
           else if (97 <=? k) && (k <=? 102) then Some (k - 87)
           else if (65 <=? k) && (k <=? 70) then Some (k - 55)
           else None in
  match d with
  | Some v => if v <? radix then Some v else None
  | None => None
  end.

Fixpoint parse_digits (radix : Z) (acc : option Z) (s : string) : option Z :=
  match s with
  | EmptyString => acc
  | String c s' =>
      match digit_in_radix radix c with
      | Some d => parse_digits radix (Some (radix * default 0 acc + d)) s'
      | None => acc
      end
  end.

Definition parseInt (s : string) : option Z :=
  let s1 := skip_whitespace s in
  let '(sign, s2) :=
    match s1 with
    | String "-" rest => (-1, rest)
    | String "+" rest => (1, rest)
    | _ => (1, s1)
    end in
  let '(radix, s3) :=
    match s2 with
    | String "0" (String "x" rest) => (16, rest)
    | String "0" (String "X" rest) => (16, rest)
    | _ => (10, s2)
    end in
  Z.mul sign <$> parse_digits radix None s3.

(** ** JavaScript values

    What [express.json()] puts in [req.body], what a [Mixed] path stores
    and what [res.json] sends.  Numbers are integers; [JDate] is a [Date],
    in milliseconds. *)
#[local] Set Warnings "-register-all".
Inductive JsValue : Type :=
| JUndefined
| JNull
| JBool (b : bool)
| JNum (n : Z)
| JStr (s : string)
| JDate (ms : Z)
| JArr (elems : list JsValue)
| JObj (fields : list (string * JsValue)).

(** [!v] is [negb (truthy v)]. *)
Definition truthy (v : JsValue) : bool :=
  match v with
  | JUndefined | JNull => false
  | JBool b => b
  | JNum n => negb (n =? 0)
  | JStr s => negb (String.eqb s EmptyString)
  | JDate _ | JArr _ | JObj _ => true
  end.

Definition Array_isArray (v : JsValue) : bool :=
  match v with JArr _ => true | _ => false end.

Definition Array_elems (v : JsValue) : list JsValue :=
  match v with JArr elems => elems | _ => [] end.

Fixpoint get_field (name : string) (fields : list (string * JsValue)) : JsValue :=
  match fields with
  | [] => JUndefined
  | (k, v) :: rest => if String.eqb k name then v else get_field name rest
  end.

(** [v.length], for a [v] that is neither [null] nor [undefined]. *)
Definition js_length (v : JsValue) : JsValue :=
  match v with
  | JArr elems => JNum (Z.of_nat (length elems))
  | JStr s => JNum (Z.of_nat (String.length s))
  | JObj fields => get_field "length" fields
  | _ => JUndefined
  end.

(** [v === 0] *)
Definition is_zero (v : JsValue) : bool :=
  match v with JNum n => n =? 0 | _ => false end.

Definition of_option_string (o : option string) : JsValue :=
  match o with Some s => JStr s | None => JUndefined end.

Definition of_option_number (o : option Z) : JsValue :=
  match o with Some n => JNum n | None => JUndefined end.

Definition of_option_date (o : option Z) : JsValue :=
  match o with Some t => JDate t | None => JUndefined end.

(** ** Buffers and base64 *)

Definition base64_alphabet : string :=
  "ABCDEFGHIJKLMNOPQRSTUVWXYZabcdefghijklmnopqrstuvwxyz0123456789+/".

Definition base64_char (sextet : Z) : ascii :=
  default "="%char (String.get (Z.to_nat sextet) base64_alphabet).

Definition byte_value (b : Byte.byte) : Z := Z.of_N (Byte.to_N b).

Definition byte_of_value (v : Z) : Byte.byte :=
  default Byte.x00 (Byte.of_N (Z.to_N (v mod 256))).

(** [buffer.toString("base64")]: three bytes make a number of 24 bits,
    written as four characters of six bits each. *)
Fixpoint Buffer_toString_base64 (bs : list Byte.byte) : string :=
  match bs with
  | [] => EmptyString
  | [a] =>
      let n := byte_value a * 65536 in
      String (base64_char (n / 262144))
     (String (base64_char (n / 4096 mod 64)) "==")
  | [a; b] =>
      let n := byte_value a * 65536 + byte_value b * 256 in
      String (base64_char (n / 262144))
     (String (base64_char (n / 4096 mod 64))
     (String (base64_char (n / 64 mod 64)) "="))
  | a :: b :: c :: rest =>
      let n := byte_value a * 65536 + byte_value b * 256 + byte_value c in
      String (base64_char (n / 262144))
     (String (base64_char (n / 4096 mod 64))
     (String (base64_char (n / 64 mod 64))
     (String (base64_char (n mod 64)) (Buffer_toString_base64 rest))))
  end.

Definition base64_sextet (c : ascii) : option Z :=
  let k := Z.of_nat (nat_of_ascii c) in
  if (65 <=? k) && (k <=? 90) then Some (k - 65)
  else if (97 <=? k) && (k <=? 122) then Some (k - 71)
  else if (48 <=? k) && (k <=? 57) then Some (k + 4)
  else if (k =? 43) || (k =? 45) then Some 62
  else if (k =? 47) || (k =? 95) then Some 63
  else None.

(** The sextets of a base64 text: decoding stops at the first [=] and
    skips every character outside the alphabet. *)
Fixpoint base64_sextets (s : string) : list Z :=
  match s with
  | EmptyString => []
  | String c s' =>
      if Ascii.eqb c "="%char then []
      else match base64_sextet c with
           | Some v => v :: base64_sextets s'
           | None => base64_sextets s'
           end
  end.

Fixpoint bytes_of_sextets (l : list Z) : list Byte.byte :=
  match l with
  | a :: b :: c :: d :: rest =>
      let n := a * 262144 + b * 4096 + c * 64 + d in
      byte_of_value (n / 65536) :: byte_of_value (n / 256)
        :: byte_of_value n :: bytes_of_sextets rest
  | [a; b; c] =>
      let n := a * 262144 + b * 4096 + c * 64 in
      [byte_of_value (n / 65536); byte_of_value (n / 256)]
  | [a; b] =>
      let n := a * 262144 + b * 4096 in
      [byte_of_value (n / 65536)]
  | _ => []
  end.

(** [Buffer.from(v, "base64")]; [None] when [v] is not a string and the
    call throws. *)
Definition Buffer_from_base64 (v : JsValue) : option (list Byte.byte) :=
  match v with
  | JStr s => Some (bytes_of_sextets (base64_sextets s))
  | _ => None
  end.

(** ** The schemas (server.js, lines 36-56) *)

(** [DataItemSchema].  A [Date] is a number of milliseconds. *)
Record DataItem : Type := {
  data : JsValue;
  fileName : option string;
  fileType : option string;
  fileSize : option Z;
  isFile : bool;
  downloaded : bool;
  downloadedAt : option Z
}.

(** [DataSchema] *)
Record Data : Type := {
  code : string;
  items : list DataItem;
  verified : bool;
  createdAt : Z;
  verifiedAt : option Z
}.

(** The [data] path is [required: true]: Mongoose's validator for a
    [Mixed] path accepts every value but [null] and [undefined]. *)
Definition is_present (v : JsValue) : bool :=
  match v with JUndefined | JNull => false | _ => true end.

(** What [save()] validates before it writes: the two required paths. *)
Definition validate (doc : Data) : bool :=
  negb (String.eqb (code doc) EmptyString)
  && forallb (fun item => is_present (data item)) (items doc).

(** What [save()] writes of a value: the schemas keep Mongoose's default
    [minimize: true], so the copy that is written leaves out every field
    whose value is [undefined] and every object left with no field, which
    itself becomes [undefined].  An array keeps all its elements: an
    object that is an element of an array stays, even with no field
    left. *)
Fixpoint clone_minimize (isArrayChild : bool) (v : JsValue) : JsValue :=
  match v with
  | JArr elems => JArr (List.map (clone_minimize true) elems)
  | JObj fields =>
      let kept :=
        (fix clone_fields (fs : list (string * JsValue)) : list (string * JsValue) :=
           match fs with
           | [] => []
           | (k, x) :: rest =>
               match clone_minimize false x with
               | JUndefined => clone_fields rest
               | x' => (k, x') :: clone_fields rest
               end
           end) fields in
      match kept, isArrayChild with
      | [], false => JUndefined
      | _, _ => JObj kept
      end
  | _ => v
  end.

Definition minimize (v : JsValue) : JsValue := clone_minimize false v.

(** A field name the driver takes in every version: it does not start
    with a dollar sign and holds neither a dot nor the character of
    code 0. *)
Fixpoint no_dot_or_null (s : string) : bool :=
  match s with
  | EmptyString => true
  | String c s' =>
      negb (Ascii.eqb c "."%char) && negb (Ascii.eqb c (ascii_of_nat 0))
      && no_dot_or_null s'
  end.

Definition field_name_ok (k : string) : bool :=
  match k with
  | String "$" _ => false
  | _ => no_dot_or_null k
  end.

(** A plain value: no [undefined] and no object without fields anywhere
    in it, and only field names the driver takes.  [save()] writes a
    plain value as it is.  The store of the model takes every field
    name; what a driver does with the other names is left open, and the
    theorems on what an ingestion stores speak of plain values. *)
Fixpoint plain (v : JsValue) : bool :=
  match v with
  | JUndefined => false
  | JArr elems => forallb plain elems
  | JObj fields =>
      match fields with [] => false | _ :: _ => true end
      && (fix plain_fields (fs : list (string * JsValue)) : bool :=
            match fs with
            | [] => true
            | (k, x) :: rest => field_name_ok k && plain x && plain_fields rest
            end) fields
  | _ => true
  end.

(** The item and the document [save()] writes for a new document. *)
Definition stored_item (item : DataItem) : DataItem :=
  {| data := minimize (data item); fileName := fileName item;
     fileType := fileType item; fileSize := fileSize item;
     isFile := isFile item; downloaded := downloaded item;
     downloadedAt := downloadedAt item |}.

Definition stored_doc (doc : Data) : Data :=
  {| code := code doc; items := List.map stored_item (items doc);
     verified := verified doc; createdAt := createdAt doc;
     verifiedAt := verifiedAt doc |}.

(** ** The assignments a handler makes to a fetched document *)

(** [dataEntry.verified = true; dataEntry.verifiedAt = new Date()]
    (lines 198-199) *)
Definition mark_verified (now : Z) (dataEntry : Data) : Data :=
  {| code := code dataEntry; items := items dataEntry; verified := true;
     createdAt := createdAt dataEntry; verifiedAt := Some now |}.

(** [item.downloaded = true; item.downloadedAt = new Date()]
    (lines 289-290) *)
Definition mark_downloaded (now : Z) (item : DataItem) : DataItem :=
  {| data := data item; fileName := fileName item; fileType := fileType item;
     fileSize := fileSize item; isFile := isFile item;
     downloaded := true; downloadedAt := Some now |}.

(** [item] is the element of [dataEntry.items] itself, so the assignment
    changes the document that is saved next. *)
Definition set_item (dataEntry : Data) (index : nat) (item : DataItem) : Data :=
  {| code := code dataEntry; items := <[index := item]> (items dataEntry);
     verified := verified dataEntry; createdAt := createdAt dataEntry;
     verifiedAt := verifiedAt dataEntry |}.

(** What [save()] sends for a fetched document: the paths assigned since
    it was fetched, as one [$set].  The paths not named keep what the
    store holds when the write arrives. *)
Inductive Update : Type :=
| SetVerified (now : Z)
    (* { $set: { verified: true, verifiedAt: now } } *)
| SetDownloaded (index : nat) (now : Z).
    (* { $set: { "items.index.downloaded": true, "items.index.downloadedAt": now } } *)

Definition apply_update (upd : Update) (stored : Data) : Data :=
  match upd with
  | SetVerified now => mark_verified now stored
  | SetDownloaded index now =>
      match items stored !! index with
      | Some item => set_item stored index (mark_downloaded now item)
      | None => stored
      end
  end.

(** ** Responses *)

Inductive ResBody : Type :=
| ResJson (v : JsValue)                 (* res.json(v) *)
| ResJsonText (v : JsValue)             (* res.send(JSON.stringify(v, null, 2)) *)
| ResBuffer (bytes : list Byte.byte).   (* res.send(buffer) *)

Record Response : Type := {
  status : Z;
  headers : list (string * string);
  body : ResBody
}.

Definition json (st : Z) (v : JsValue) : Response :=
  {| status := st; headers := []; body := ResJson v |}.

Definition error_json (st : Z) (msg : string) : Response :=
  json st (JObj [("error", JStr msg)]).

(** What a handler's [try] block can throw. *)
Inductive Thrown : Type :=
| TypeError
| ValidationError
| DuplicateKeyError
| DocumentNotFoundError.

(** [error.code]: the driver numbers a duplicate key 11000; the other
    errors carry no code. *)
Definition error_code (e : Thrown) : JsValue :=
  match e with DuplicateKeyError => JNum 11000 | _ => JUndefined end.

(** [error.message].  The library's wording is outside the source; the
    error's kind stands for it. *)
Definition error_message (e : Thrown) : string :=
  match e with
  | TypeError => "TypeError"
  | ValidationError => "Data validation failed"
  | DuplicateKeyError => "E11000 duplicate key error"
  | DocumentNotFoundError => "No document found"
  end.

(** ** The store, and a handler as the store operations it awaits

    The collection is a finite map from [code] (its unique index) to the
    document.  A handler runs on its own between two [await]s, so it is a
    tree of store operations, each with the code that runs on its result.
    The store is assumed reachable: connection failures are not
    modelled.  A document has no [_id] here: the write of a fetched
    document finds it by its code. *)
Inductive Proc : Type :=
| Respond (res : Response)
| Drawing
    (* the uniqueness loop is still running: the draws given were all taken *)
| FindOne (c : string) (k : option Data -> Proc)
    (* await DataModel.findOne({ code: c }) *)
| InsertOne (doc : Data) (k : bool -> Proc)
    (* the write of save() on a new document; false: duplicate key *)
| UpdateOne (c : string) (upd : Update) (k : bool -> Proc)
    (* the write of save() on the fetched document of code c; false: it is gone *)
| DeleteOne (c : string) (k : Proc).
    (* await DataModel.deleteOne({ code: c }) *)

(** One store operation of a handler, against the store as it is now. *)
Definition step (p : Proc) (st : gmap string Data) : Proc * gmap string Data :=
  match p with
  | Respond _ | Drawing => (p, st)
  | FindOne c k => (k (st !! c), st)
  | InsertOne doc k =>
      match st !! code doc with
      | Some _ => (k false, st)
      | None => (k true, <[code doc := doc]> st)
      end
  | UpdateOne c upd k =>
      match st !! c with
      | Some stored => (k true, <[c := apply_update upd stored]> st)
      | None => (k false, st)
      end
  | DeleteOne c k => (k, delete c st)
  end.

(** A handler run from start to end with no other request in between.
    [None]: no response within the draws given. *)
Fixpoint run (p : Proc) (st : gmap string Data) : option Response * gmap string Data :=
  match p with
  | Respond res => (Some res, st)
  | Drawing => (None, st)
  | FindOne c k => run (k (st !! c)) st
  | InsertOne doc k =>
      match st !! code doc with
      | Some _ => run (k false) st
      | None => run (k true) (<[code doc := doc]> st)
      end
  | UpdateOne c upd k =>
      match st !! c with
      | Some stored => run (k true) (<[c := apply_update upd stored]> st)
      | None => run (k false) st
      end
  | DeleteOne c k => run k (delete c st)
  end.

(** Requests in flight together: [sched] names, step by step, the
    request whose next store operation runs. *)
Fixpoint interleave (sched : list nat) (pool : list Proc) (st : gmap string Data)
  : list Proc * gmap string Data :=
  match sched with
  | [] => (pool, st)
  | i :: sched' =>
      match pool !! i with
      | None => interleave sched' pool st
      | Some p =>
          let '(p', st') := step p st in
          interleave sched' (<[i := p']> pool) st'
      end
  end.

(** [doc.save()] on a document made with [new DataModel(...)]: the
    document is validated as it is, and written minimized. *)
Definition save_new (doc : Data) (k : option Thrown -> Proc) : Proc :=
  if validate doc
  then InsertOne (stored_doc doc)
         (fun stored => k (if stored then None else Some DuplicateKeyError))
  else k (Some ValidationError).

(** [doc.save()] on a document [findOne] returned, [upd] being what was
    assigned to it since: the whole document is validated, the
    assignments are written. *)
Definition save_fetched (doc : Data) (upd : Update) (k : option Thrown -> Proc) : Proc :=
  if validate doc
  then UpdateOne (code doc) upd
         (fun found => k (if found then None else Some DocumentNotFoundError))
  else k (Some ValidationError).

(** [new DataModel({ code, items, verified: false })]; [createdAt] takes
    its default, [Date.now()]. *)
Definition new_DataModel (now : Z) (code' : string) (items' : list DataItem) : Data :=
  {| code := code'; items := items'; verified := false;
     createdAt := now; verifiedAt := None |}.

(** ** The uniqueness loop (server.js, lines 74-84 and 131-141)

    [draws] are the values [Math.random()] returns, in order. *)
Fixpoint unique_code_loop (draws : list Z) (k : string -> Proc) : Proc :=
  match draws with
  | [] => Drawing
  | r :: draws' =>
      let code' := generateCode r in
      FindOne code' (fun existing =>
        match existing with
        | None => k code'
        | Some _ => unique_code_loop draws' k
        end)
  end.

(** ** POST /api/generate-code (server.js, lines 66-122) *)

Definition data_item (value : JsValue) : DataItem :=
  {| data := value; fileName := None; fileType := None; fileSize := None;
     isFile := false; downloaded := false; downloadedAt := None |}.

Definition catch_generate_code (_ : Thrown) : Proc :=
  Respond (error_json 500 "Failed to generate code").

(** The guard of line 70. *)
Definition data_missing (data' multipleData : JsValue) : bool :=
  negb (truthy data')
  && (negb (truthy multipleData) || is_zero (js_length multipleData)).

(** Lines 87-102. *)
Definition body_items (data' multipleData : JsValue) : list DataItem :=
  if truthy multipleData && Array_isArray multipleData
  then map data_item (Array_elems multipleData)
  else [data_item data'].

(** Lines 112-117. *)
Definition generated_response (code' : string) (items' : list DataItem) : Response :=
  json 200 (JObj [
    ("success", JBool true);
    ("code", JStr code');
    ("itemCount", JNum (Z.of_nat (length items')));
    ("message", JStr (Number_toString (Z.of_nat (length items'))
       +:+ " data item(s) stored and code generated successfully"))]).

(** Lines 87-117: what the handler does with the code the loop found. *)
Definition store_generated (now : Z) (data' multipleData : JsValue) (code' : string) : Proc :=
  let items' := body_items data' multipleData in
  let newData := new_DataModel now code' items' in
  save_new newData (fun thrown =>
    match thrown with
    | Some e => catch_generate_code e
    | None => Respond (generated_response code' items')
    end).

Definition generate_code (now : Z) (draws : list Z) (data' multipleData : JsValue) : Proc :=
  if data_missing data' multipleData
  then Respond (error_json 400 "Data is required")
  else unique_code_loop draws (store_generated now data' multipleData).

(** ** POST /api/upload-file (server.js, lines 125-180)

    [req.files] as multer leaves it; multer's own limits act before the
    handler and are not part of it. *)
Record File : Type := {
  buffer : list Byte.byte;
  originalname : string;
  mimetype : string;
  size : Z
}.

Definition file_item (file : File) : DataItem :=
  {| data := JStr (Buffer_toString_base64 (buffer file));
     fileName := Some (originalname file);
     fileType := Some (mimetype file);
     fileSize := Some (size file);
     isFile := true; downloaded := false; downloadedAt := None |}.

Definition is_limit_file_size (v : JsValue) : bool :=
  match v with JStr s => String.eqb s "LIMIT_FILE_SIZE" | _ => false end.

Definition catch_upload_file (e : Thrown) : Proc :=
  if is_limit_file_size (error_code e)
  then Respond (error_json 413
         "File size exceeds 5GB limit. Please upload smaller files.")
  else Respond (error_json 500 ("Failed to upload file: " +:+ error_message e)).

(** Lines 161-170. *)
Definition uploaded_response (code' : string) (items' : list DataItem) : Response :=
  json 200 (JObj [
    ("success", JBool true);
    ("code", JStr code');
    ("items", JArr (map (fun item => JObj [
       ("fileName", of_option_string (fileName item));
       ("fileType", of_option_string (fileType item));
       ("fileSize", of_option_number (fileSize item))]) items'));
    ("message", JStr (Number_toString (Z.of_nat (length items'))
       +:+ " file(s) uploaded and code generated successfully"))]).

(** Lines 143-170: what the handler does with the code the loop found. *)
Definition store_uploaded (now : Z) (files' : list File) (code' : string) : Proc :=
  let items' := map file_item files' in
  let newData := new_DataModel now code' items' in
  save_new newData (fun thrown =>
    match thrown with
    | Some e => catch_upload_file e
    | None => Respond (uploaded_response code' items')
    end).

Definition upload_file (now : Z) (draws : list Z) (files : option (list File)) : Proc :=
  match files with
  | None | Some [] => Respond (error_json 400 "At least one file is required")
  | Some files' => unique_code_loop draws (store_uploaded now files')
  end.

(** ** POST /api/verify-code (server.js, lines 183-226) *)

(** The projection of one item that verification and the metadata read
    both return (lines 203-212 and 239-247). *)
Definition item_info (index : nat) (item : DataItem) : JsValue :=
  JObj [
    ("id", JNum (Z.of_nat index));
    ("isFile", JBool (isFile item));
    ("fileName", of_option_string (fileName item));
    ("fileType", of_option_string (fileType item));
    ("fileSize", of_option_number (fileSize item));
    ("downloaded", JBool (downloaded item));
    ("data", if isFile item then JNull else data item)].

Definition catch_verify_code (_ : Thrown) : Proc :=
  Respond (error_json 500 "Failed to verify code").

Definition verify_response (dataEntry : Data) : Response :=
  let items' := imap item_info (items dataEntry) in
  json 200 (JObj [
    ("success", JBool true);
    ("code", JStr (code dataEntry));
    ("items", JArr items');
    ("itemCount", JNum (Z.of_nat (length items')));
    ("verified", JBool true);
    ("createdAt", JDate (createdAt dataEntry))]).

Definition verify_code (now : Z) (code' : JsValue) : Proc :=
  if negb (truthy code') then Respond (error_json 400 "Code is required")
  else
    match code' with
    | JStr c =>
        FindOne (toUpperCase c) (fun found =>
          match found with
          | None => Respond (error_json 404 "Invalid code")
          | Some dataEntry =>
              let dataEntry := mark_verified now dataEntry in
              save_fetched dataEntry (SetVerified now) (fun thrown =>
                match thrown with
                | Some e => catch_verify_code e
                | None => Respond (verify_response dataEntry)
                end)
          end)
    | _ => catch_verify_code TypeError   (* code.toUpperCase is not a function *)
    end.

(** ** GET /api/data/:code (server.js, lines 229-262) *)

Definition data_response (dataEntry : Data) : Response :=
  let items' := imap item_info (items dataEntry) in
  json 200 (JObj [
    ("success", JBool true);
    ("code", JStr (code dataEntry));
    ("items", JArr items');
    ("itemCount", JNum (Z.of_nat (length items')));
    ("verified", JBool (verified dataEntry));
    ("createdAt", JDate (createdAt dataEntry));
    ("verifiedAt", of_option_date (verifiedAt dataEntry))]).

Definition get_data (code' : string) : Proc :=
  FindOne (toUpperCase code') (fun found =>
    match found with
    | None => Respond (error_json 404 "Data not found")
    | Some dataEntry => Respond (data_response dataEntry)
    end).

(** ** GET /api/download/:code/:itemId (server.js, lines 265-333) *)

(** [a < b] and [a >= b] on numbers, [None] being [NaN]: every comparison
    with [NaN] is false. *)
Definition js_lt (a b : option Z) : bool :=
  match a, b with Some x, Some y => x <? y | _, _ => false end.

Definition js_ge (a b : option Z) : bool :=
  match a, b with Some x, Some y => y <=? x | _, _ => false end.

(** [arr[i]]: [undefined] off the array and at [NaN]. *)
Definition array_get {A : Type} (arr : list A) (i : option Z) : option A :=
  match i with
  | Some n => if n <? 0 then None else arr !! Z.to_nat n
  | None => None
  end.

Definition catch_download (_ : Thrown) : Proc :=
  Respond (error_json 500 "Failed to download data").

(** [s || fallback] on an optional string: the empty string is falsy. *)
Definition or_else (o : option string) (fallback : string) : string :=
  match o with
  | Some s => if String.eqb s EmptyString then fallback else s
  | None => fallback
  end.

(** The double quote around an attachment's file name. *)
Definition dquote : string := String (ascii_of_nat 34) EmptyString.

(** [res.setHeader(name, value)] throws on a value with a character
    other than the tab, the code units 32 to 126 and those from 128 up
    to 255. *)
Definition header_char_ok (c : ascii) : bool :=
  let k := nat_of_ascii c in
  (k =? 9)%nat || ((32 <=? k)%nat && (k <=? 126)%nat) || (128 <=? k)%nat.

Fixpoint header_value_ok (s : string) : bool :=
  match s with
  | EmptyString => true
  | String c s' => header_char_ok c && header_value_ok s'
  end.

(** The calls of [res.setHeader] in turn: the headers set before the
    first call that throws, and whether every call returned. *)
Fixpoint setHeaders (hs : list (string * string)) : list (string * string) * bool :=
  match hs with
  | [] => ([], true)
  | (name, value) :: rest =>
      if header_value_ok value
      then let '(set, ok) := setHeaders rest in ((name, value) :: set, ok)
      else ([], false)
  end.

(** The headers and the body lines 295-308 prepare for a file. *)
Definition file_response (code' itemId : string) (item : DataItem)
    (fileBuffer : list Byte.byte) : Response :=
  let fileName' := or_else (fileName item) ("file-" +:+ code' +:+ "-" +:+ itemId) in
  {| status := 200;
     headers := [
       ("Content-Type", or_else (fileType item) "application/octet-stream");
       ("Content-Disposition",
        "attachment; filename=" +:+ dquote +:+ fileName' +:+ dquote);
       ("Content-Length", Number_toString (Z.of_nat (length fileBuffer)))];
     body := ResBuffer fileBuffer |}.

(** The headers and the body lines 311-327 prepare for a value. *)
Definition data_download_response (code' itemId : string) (itemIndex : Z)
    (dataEntry : Data) (item : DataItem) : Response :=
  {| status := 200;
     headers := [
       ("Content-Type", "application/json");
       ("Content-Disposition",
        "attachment; filename=" +:+ dquote +:+ "data-" +:+ code' +:+ "-" +:+ itemId
          +:+ ".json" +:+ dquote)];
     body := ResJsonText (JObj [
       ("code", JStr (code dataEntry));
       ("itemId", JNum itemIndex);
       ("data", data item);
       ("createdAt", JDate (createdAt dataEntry))]) |}.

(** The headers are set and the body is sent (lines 298-308 and 322-327).
    When [res.setHeader] throws, the [catch] of line 329 answers instead,
    on the same [res]: the headers set until then stay on it. *)
Definition send (res : Response) : Response :=
  match setHeaders (headers res) with
  | (set, true) => {| status := status res; headers := set; body := body res |}
  | (set, false) =>
      {| status := 500; headers := set;
         body := ResJson (JObj [("error", JStr "Failed to download data")]) |}
  end.

Definition download (now : Z) (code' itemId : string) : Proc :=
  let itemIndex := parseInt itemId in
  FindOne (toUpperCase code') (fun found =>
    match found with
    | None => Respond (error_json 404 "Data not found")
    | Some dataEntry =>
        if js_lt itemIndex (Some 0)
           || js_ge itemIndex (Some (Z.of_nat (length (items dataEntry))))
        then Respond (error_json 404 "Item not found")
        else
          match array_get (items dataEntry) itemIndex, itemIndex with
          | Some item, Some index =>
              if downloaded item
              then Respond (error_json 410 "This item has already been downloaded")
              else
                let item := mark_downloaded now item in
                let dataEntry := set_item dataEntry (Z.to_nat index) item in
                save_fetched dataEntry (SetDownloaded (Z.to_nat index) now) (fun thrown =>
                  match thrown with
                  | Some e => catch_download e
                  | None =>
                      if isFile item
                      then match Buffer_from_base64 (data item) with
                           | Some fileBuffer =>
                               Respond (send (file_response code' itemId item fileBuffer))
                           | None => catch_download TypeError
                           end
                      else Respond (send (data_download_response code' itemId index
                                            dataEntry item))
                  end)
          | _, _ => catch_download TypeError   (* item is undefined *)
          end
    end).

(** Lines 289-332 on an item not yet downloaded whose [data], if it is a
    file, is a base64 text: the answer, the item being marked and saved
    first. *)
Definition sent_response (now : Z) (code' itemId : string) (index : Z)
    (dataEntry : Data) (item : DataItem) : Response :=
  let item' := mark_downloaded now item in
  let dataEntry' := set_item dataEntry (Z.to_nat index) item' in
  if isFile item'
  then send (file_response code' itemId item'
               (default [] (Buffer_from_base64 (data item'))))
  else send (data_download_response code' itemId index dataEntry' item').

(** The texts lines 296-304 and 325 put into headers are free of the
    characters [res.setHeader] refuses: the index as the address gives
    it and, for a file, its name and its type. *)
Definition attachment_ok (itemId : string) (item : DataItem) : Prop :=
  header_value_ok itemId = true /\
  (isFile item = true ->
   (forall s, fileName item = Some s -> header_value_ok s = true) /\
   (forall s, fileType item = Some s -> header_value_ok s = true)).

(** ** DELETE /api/data/:code (server.js, lines 336-356) *)

Definition delete_data (code' : string) : Proc :=
  FindOne (toUpperCase code') (fun found =>
    match found with
    | None => Respond (error_json 404 "Data not found")
    | Some _ =>
        DeleteOne (toUpperCase code')
          (Respond (json 200 (JObj [
             ("success", JBool true);
             ("message", JStr "Data deleted successfully")])))
    end).

(** ** GET /api/health (server.js, lines 359-361) *)

Definition health : Proc :=
  Respond (json 200 (JObj [("status", JStr "OK");
                           ("message", JStr "Server is running")])).

(** ** The routes *)

Inductive Request : Type :=
| PostGenerateCode (data' multipleData : JsValue)
| PostUploadFile (files : option (list File))
| PostVerifyCode (code' : JsValue)
| GetData (code' : string)
| GetDownload (code' itemId : string)
| DeleteData (code' : string)
| GetHealth.

(** The handler of a request, given what the clock and [Math.random()]
    return while it runs. *)
Definition handler (now : Z) (draws : list Z) (req : Request) : Proc :=
  match req with
  | PostGenerateCode data' multipleData => generate_code now draws data' multipleData
  | PostUploadFile files => upload_file now draws files
  | PostVerifyCode code' => verify_code now code'
  | GetData code' => get_data code'
  | GetDownload code' itemId => download now code' itemId
  | DeleteData code' => delete_data code'
  | GetHealth => health
  end.

(** ** Requests one after another *)

(** The first draw whose code no stored record has: the code the
    uniqueness loop leaves with. *)
Fixpoint first_fresh (draws : list Z) (st : gmap string Data) : option string :=
  match draws with
  | [] => None
  | r :: draws' =>
      match st !! generateCode r with
      | None => Some (generateCode r)
      | Some _ => first_fresh draws' st
      end
  end.

(** Handlers run to the end one at a time, each on the store the one
    before left. *)
Fixpoint run_all (ps : list Proc) (st : gmap string Data)
  : list (option Response) * gmap string Data :=
  match ps with
  | [] => ([], st)
  | p :: ps' =>
      let '(res, st') := run p st in
      let '(rest, st'') := run_all ps' st' in
      (res :: rest, st'')
  end.

(** ** Invariants of the store *)

(** The item invariant of the data model: [downloaded] is true exactly
    when [downloadedAt] is set. *)
Definition consumed_inv (item : DataItem) : Prop :=
  downloaded item = true <-> is_Some (downloadedAt item).

Definition store_consumed_inv (st : gmap string Data) : Prop :=
  forall k doc, st !! k = Some doc -> Forall consumed_inv (items doc).

(** An item as the two ingestion routes make it. *)
Definition unconsumed (item : DataItem) : Prop :=
  downloaded item = false /\ downloadedAt item = None.

(** A stored item passed validation, and a file's [data] is the base64
    text of its bytes. *)
Definition item_ok (item : DataItem) : Prop :=
  is_present (data item) = true /\
  (isFile item = true -> exists s, data item = JStr s).

(** A code as [generateCode] makes it. *)
Definition is_code (k : string) : Prop :=
  String.length k = 6%nat /\ all_digits k = true.

(** Every record is stored under its own code, the code is a generated
    one, and its items are valid. *)
Definition store_ok (st : gmap string Data) : Prop :=
  forall k doc, st !! k = Some doc ->
    code doc = k /\ is_code k /\ Forall item_ok (items doc).

(** What one request can do to the store. *)
Inductive request_effect (st : gmap string Data) : gmap string Data -> Prop :=
| effect_none :
    request_effect st st
| effect_created (doc : Data) :
    st !! code doc = None ->
    verified doc = false -> verifiedAt doc = None ->
    Forall unconsumed (items doc) ->
    request_effect st (<[code doc := doc]> st)
| effect_verified (now : Z) (doc : Data) :
    st !! code doc = Some doc ->
    request_effect st (<[code doc := mark_verified now doc]> st)
| effect_consumed (now : Z) (doc : Data) (index : nat) (item : DataItem) :
    st !! code doc = Some doc ->
    items doc !! index = Some item ->
    downloaded item = false ->
    request_effect st (<[code doc := set_item doc index (mark_downloaded now item)]> st)
| effect_deleted (k : string) :
    is_Some (st !! k) ->
    request_effect st (delete k st).

(** The item a metadata response lists at [index]. *)
Definition listed_item (res : Response) (index : nat) : option JsValue :=
  match body res with
  | ResJson (JObj fields) =>
      match get_field "items" fields with
      | JArr infos => infos !! index
      | _ => None
      end
  | _ => None
  end.

Definition field_of (name : string) (v : JsValue) : JsValue :=
  match v with JObj fields => get_field name fields | _ => JUndefined end.

(** Every record is stored under its own code. *)
Definition keyed (st : gmap string Data) : Prop :=
  forall k doc, st !! k = Some doc -> code doc = k.

Definition store_all (P : Data -> Prop) (st : gmap string Data) : Prop :=
  forall k doc, st !! k = Some doc -> P doc.

(** [proc_keeps P p]: every document [p] inserts satisfies [P] and every
    update it sends keeps [P], as long as every document it is handed
    satisfies [P]. *)
Fixpoint proc_keeps (P : Data -> Prop) (p : Proc) : Prop :=
  match p with
  | Respond _ | Drawing => True
  | FindOne _ k => forall found, (forall doc, found = Some doc -> P doc) -> proc_keeps P (k found)
  | InsertOne doc k => P doc /\ forall stored, proc_keeps P (k stored)
  | UpdateOne _ upd k =>
      (forall stored, P stored -> P (apply_update upd stored))
      /\ forall found, proc_keeps P (k found)
  | DeleteOne _ k => proc_keeps P k
  end.

Definition doc_consumed_inv (doc : Data) : Prop := Forall consumed_inv (items doc).

Definition doc_ok (doc : Data) : Prop :=
  is_code (code doc) /\ Forall item_ok (items doc).

(** A top-level field of a JSON response. *)
Definition response_field (name : string) (res : Response) : JsValue :=
  match body res with
  | ResJson v => field_of name v
  | _ => JUndefined
  end.

(** [new] is [old] with at most its flags raised: the content of the item
    is the same, and an item that was downloaded stays so, at the same
    time. *)
Definition item_grows (old new : DataItem) : Prop :=
  data new = data old /\ fileName new = fileName old /\
  fileType new = fileType old /\ fileSize new = fileSize old /\
  isFile new = isFile old /\
  (downloaded old = true ->
   downloaded new = true /\ downloadedAt new = downloadedAt old).

Definition record_grows (old new : Data) : Prop :=
  code new = code old /\ createdAt new = createdAt old /\
  Forall2 item_grows (items old) (items new) /\
  (verified old = true -> verified new = true).

(** A handler that writes by insertion alone. *)
Fixpoint inserts_only (p : Proc) : Prop :=
  match p with
  | Respond _ | Drawing => True
  | FindOne _ k => forall found, inserts_only (k found)
  | InsertOne _ k => forall stored, inserts_only (k stored)
  | UpdateOne _ _ _ | DeleteOne _ _ => False
  end.

Definition is_ingestion (req : Request) : Prop :=
  match req with
  | PostGenerateCode _ _ | PostUploadFile _ => True
  | _ => False
  end.

Definition is_deletion (req : Request) : Prop :=
  match req with DeleteData _ => True | _ => False end.

Definition is_download (req : Request) : Prop :=
  match req with GetDownload _ _ => True | _ => False end.

(** The requests of a list served one after another. *)
Definition serve (reqs : list (Z * list Z * Request)) (st : gmap string Data)
  : gmap string Data :=
  snd (run_all (map (fun '(now, draws, req) => handler now draws req) reqs) st).

(** What the upload route answers for one file (lines 164-168). *)
Definition file_info (file : File) : JsValue :=
  JObj [("fileName", JStr (originalname file));
        ("fileType", JStr (mimetype file));
        ("fileSize", JNum (size file))].

(** The bodies from which lines 70-102 make one item per value: a
    non-empty array of values other than [null] as [multipleData], or a
    truthy [data] with a [multipleData] that is no array. *)
Definition supplies (data' multipleData : JsValue) (values : list JsValue) : Prop :=
  (multipleData = JArr values /\ values <> [] /\
   Forall (fun v => is_present v = true) values) \/
  (Array_isArray multipleData = false /\ truthy data' = true /\ values = [data']).

(** A request whose values to store are plain. *)
Definition plain_request (req : Request) : Prop :=
  match req with
  | PostGenerateCode data' multipleData =>
      Forall (fun item => plain (data item) = true) (body_items data' multipleData)
  | _ => True
  end.

(** A handler that deletes nothing. *)
Fixpoint never_deletes (p : Proc) : Prop :=
  match p with
  | Respond _ | Drawing => True
  | FindOne _ k => forall found, never_deletes (k found)
  | InsertOne _ k => forall stored, never_deletes (k stored)
  | UpdateOne _ _ k => forall found, never_deletes (k found)
  | DeleteOne _ _ => False
  end.

(** ** Sample data

    A record with a text item and a file item, as the two ingestion routes
    would have stored them, for the worked scenarios below. *)

Definition sample_text : DataItem := data_item (JStr "hello").

Definition sample_file : DataItem :=
  file_item {| buffer := [Byte.x4d; Byte.x61; Byte.x6e];
               originalname := "man.txt"; mimetype := "text/plain"; size := 3 |}.

Definition sample_record : Data :=
  new_DataModel 1000 "482913" [sample_text; sample_file].

Definition sample_store : gmap string Data := {[ "482913" := sample_record ]}.

(** The character of code 127, which [res.setHeader] refuses.  In an
    address it is written [%7F]. *)
Definition del : string := String (ascii_of_nat 127) EmptyString.

(** * Theorems *)

(** ** The definitions at work *)

Example generateCode_zero : generateCode 0 = "100000"%string.
Proof. vm_compute. reflexivity. Qed.

Example generateCode_half : generateCode (2 ^ 1073) = "550000"%string.
Proof. vm_compute. reflexivity. Qed.

Example generateCode_max : generateCode (2 ^ 1074 - 2 ^ 1021) = "999999"%string.
Proof. vm_compute. reflexivity. Qed.

Example base64_Man :
  Buffer_toString_base64 [Byte.x4d; Byte.x61; Byte.x6e] = "TWFu".
Proof. reflexivity. Qed.

Example base64_Ma_back :
  Buffer_from_base64 (JStr (Buffer_toString_base64 [Byte.x4d; Byte.x61]))
  = Some [Byte.x4d; Byte.x61].
Proof. reflexivity. Qed.

Example base64_M_back :
  Buffer_from_base64 (JStr (Buffer_toString_base64 [Byte.x4d]))
  = Some [Byte.x4d].
Proof. reflexivity. Qed.

Example parseInt_examples :
  parseInt "12" = Some 12 /\ parseInt "-1" = Some (-1) /\ parseInt " 7x" = Some 7 /\
  parseInt "0x10" = Some 16 /\ parseInt "1.5" = Some 1 /\
  parseInt "abc" = None /\ parseInt "" = None /\ parseInt "-" = None.
Proof. repeat split. Qed.

Example toUpperCase_example : toUpperCase "ab12Cd" = "AB12CD".
Proof. reflexivity. Qed.

(** Linear arithmetic with division and remainder by constants. *)
Ltac zdiv := Z.div_mod_to_equations; lia.

(** ** Rounding is monotone *)

Lemma rne_mono (s n m : Z) : 0 <= n <= m -> rne n s <= rne m s.
Proof.
  intros Hnm. unfold rne.
  destruct (Z.leb_spec s 0) as [Hs|Hs]; [lia|].
  assert (Hhalf : 2 ^ s = 2 * 2 ^ (s - 1)).
  { replace s with (1 + (s - 1)) at 1 by lia. rewrite Z.pow_add_r by lia. lia. }
  assert (HP : 0 < 2 ^ (s - 1)) by (apply Z.pow_pos_nonneg; lia).
  assert (Hq : n / 2 ^ s <= m / 2 ^ s) by (apply Z.div_le_mono; lia).
  pose proof (Z.div_mod n (2 ^ s) ltac:(lia)) as En.
  pose proof (Z.div_mod m (2 ^ s) ltac:(lia)) as Em.
  pose proof (Z.mod_pos_bound n (2 ^ s) ltac:(lia)) as Bn.
  pose proof (Z.mod_pos_bound m (2 ^ s) ltac:(lia)) as Bm.
  set (qn := n / 2 ^ s) in *. set (qm := m / 2 ^ s) in *.
  set (rn := n mod 2 ^ s) in *. set (rm := m mod 2 ^ s) in *.
  set (h := 2 ^ (s - 1)) in *.
  destruct (Z.eq_dec qn qm) as [Heq|Hne].
  - assert (Hr : rn <= rm) by nia.
    rewrite Heq.
    destruct (Z.ltb_spec h rn), (Z.ltb_spec h rm),
      (Z.eqb_spec rn h), (Z.eqb_spec rm h), (Z.odd qm); simpl; lia.
  - destruct ((h <? rn) || (rn =? h) && Z.odd qn),
      ((h <? rm) || (rm =? h) && Z.odd qm); lia.
Qed.

Lemma rne_lower (n s : Z) : 0 < s -> n / 2 ^ s <= rne n s.
Proof.
  intros Hs. unfold rne. destruct (Z.leb_spec s 0); [lia|].
  destruct (_ || _); lia.
Qed.

Lemma rne_upper (n s : Z) : 0 < s -> rne n s <= n / 2 ^ s + 1.
Proof.
  intros Hs. unfold rne. destruct (Z.leb_spec s 0); [lia|].
  destruct (_ || _); lia.
Qed.

Lemma rne_nonneg (n s : Z) : 0 <= n -> 0 <= rne n s.
Proof.
  intros Hn. destruct (Z.leb_spec s 0) as [Hs|Hs].
  - unfold rne. destruct (Z.leb_spec s 0); lia.
  - pose proof (rne_lower n s Hs).
    assert (0 <= n / 2 ^ s) by (apply Z.div_pos; [lia | apply Z.pow_pos_nonneg; lia]).
    lia.
Qed.

(** Below the next power of two: what [n] rounds to never passes
    [2 ^ max (log2 n + 1) s]. *)
Lemma rne_scaled_upper (n s : Z) :
  0 <= s -> 0 <= n ->
  rne n s * 2 ^ s <= 2 ^ Z.max (Z.log2 n + 1) s.
Proof.
  intros Hs Hn.
  assert (Hlt : n < 2 ^ (Z.log2 n + 1)).
  { destruct (Z.eq_dec n 0) as [->|]; [reflexivity|].
    replace (Z.log2 n + 1) with (Z.succ (Z.log2 n)) by lia.
    apply Z.log2_spec. lia. }
  pose proof (Z.log2_nonneg n) as Hl.
  destruct (Z.eq_dec s 0) as [->|Hs0].
  { unfold rne. simpl. rewrite Z.max_l by lia. lia. }
  assert (Hp : 0 < 2 ^ s) by (apply Z.pow_pos_nonneg; lia).
  pose proof (rne_upper n s ltac:(lia)) as Hu.
  destruct (Z.le_gt_cases (Z.log2 n + 1) s) as [Hle|Hgt].
  - rewrite Z.max_r by lia.
    assert (n / 2 ^ s = 0).
    { apply Z.div_small. split; [lia|].
      eapply Z.lt_le_trans; [exact Hlt|]. apply Z.pow_le_mono_r; lia. }
    nia.
  - rewrite Z.max_l by lia.
    assert (Hsplit : 2 ^ (Z.log2 n + 1) = 2 ^ (Z.log2 n + 1 - s) * 2 ^ s).
    { rewrite <- Z.pow_add_r by lia. f_equal. lia. }
    assert (n / 2 ^ s < 2 ^ (Z.log2 n + 1 - s)).
    { apply Z.div_lt_upper_bound; [lia|]. rewrite Z.mul_comm, <- Hsplit. exact Hlt. }
    rewrite Hsplit. nia.
Qed.

Lemma rne_scaled_lower (n s : Z) :
  0 < n -> 0 <= s <= Z.log2 n ->
  2 ^ Z.log2 n <= rne n s * 2 ^ s.
Proof.
  intros Hn Hs.
  assert (Hge : 2 ^ Z.log2 n <= n) by (apply Z.log2_spec; lia).
  destruct (Z.eq_dec s 0) as [->|Hs0].
  { unfold rne. simpl. lia. }
  assert (Hp : 0 < 2 ^ s) by (apply Z.pow_pos_nonneg; lia).
  pose proof (rne_lower n s ltac:(lia)) as Hlo.
  assert (Hsplit : 2 ^ Z.log2 n = 2 ^ (Z.log2 n - s) * 2 ^ s).
  { rewrite <- Z.pow_add_r by lia. f_equal. lia. }
  assert (2 ^ (Z.log2 n - s) <= n / 2 ^ s).
  { apply Z.div_le_lower_bound; [lia|]. rewrite Z.mul_comm, <- Hsplit. exact Hge. }
  rewrite Hsplit. nia.
Qed.

Lemma round_double_mono (e n m : Z) :
  0 <= e -> 0 <= n <= m -> round_double n e <= round_double m e.
Proof.
  intros He Hnm. unfold round_double.
  pose proof (Z.log2_le_mono n m ltac:(lia)) as Hlog.
  set (sn := Z.max (Z.log2 n + 1 - prec) e).
  set (sm := Z.max (Z.log2 m + 1 - prec) e).
  assert (Hsn : e <= sn) by (unfold sn; lia).
  assert (Hsm : sn <= sm) by (unfold sn, sm; lia).
  destruct (Z.eq_dec sn sm) as [Heq|Hne].
  - rewrite Heq. apply Z.mul_le_mono_nonneg_r.
    + apply Z.pow_nonneg; lia.
    + apply rne_mono; lia.
  - assert (Hsm' : sm = Z.log2 m + 1 - prec) by (unfold sn, sm in *; lia).
    assert (Hm : 0 < m).
    { destruct (Z.eq_dec m 0) as [->|]; [|lia].
      unfold sn, sm, prec in *. assert (n = 0) by lia. subst n. simpl in *. lia. }
    assert (Hpe : 0 < 2 ^ e) by (apply Z.pow_pos_nonneg; lia).
    assert (Up : rne n sn * 2 ^ (sn - e) * 2 ^ e <= 2 ^ Z.max (Z.log2 n + 1) sn).
    { rewrite <- Z.mul_assoc, <- Z.pow_add_r by lia.
      replace (sn - e + e) with sn by lia. apply rne_scaled_upper; lia. }
    assert (Lo : 2 ^ Z.log2 m <= rne m sm * 2 ^ (sm - e) * 2 ^ e).
    { rewrite <- Z.mul_assoc, <- Z.pow_add_r by lia.
      replace (sm - e + e) with sm by lia. apply rne_scaled_lower; [lia|].
      unfold prec in *. lia. }
    assert (Mid : 2 ^ Z.max (Z.log2 n + 1) sn <= 2 ^ Z.log2 m).
    { apply Z.pow_le_mono_r; [lia|]. unfold sn, sm, prec in *. lia. }
    nia.
Qed.

(** ** The code generator *)

(** The largest double below one is [1 - 2^-53]. *)
Lemma is_random_le_max (r : Z) :
  is_random r -> 0 <= r <= 2 ^ 1074 - 2 ^ 1021.
Proof.
  intros [[H0 Hr] Hlt]. split; [exact H0|].
  unfold Number_of_int, emin in Hlt. rewrite Z.mul_1_l in Hlt.
  destruct (Z.le_gt_cases (Z.log2 r) 1072) as [Hsmall|Hbig].
  - assert (r < 2 ^ 1073).
    { destruct (Z.eq_dec r 0) as [->|]; [reflexivity|].
      eapply Z.lt_le_trans; [apply (Z.log2_spec r); lia|].
      apply Z.pow_le_mono_r; lia. }
    assert (2 ^ 1073 <= 2 ^ 1074 - 2 ^ 1021) by (vm_compute; discriminate).
    lia.
  - assert (Hlog : Z.log2 r = 1073).
    { assert (Z.log2 r < 1074); [|lia].
      destruct (Z.eq_dec r 0) as [->|]; [simpl in Hbig; lia|].
      apply Z.log2_lt_pow2; lia. }
    unfold round_double, prec in Hr. rewrite Hlog in Hr.
    replace (Z.max (1073 + 1 - 53) 0) with 1021 in Hr by reflexivity.
    replace (1021 - 0) with 1021 in Hr by reflexivity.
    assert (Hsplit : 2 ^ 1074 = 2 ^ 53 * 2 ^ 1021) by reflexivity.
    assert (Hp : 0 < 2 ^ 1021) by reflexivity.
    set (k := rne r 1021) in *.
    set (P := 2 ^ 1021) in *. set (Q := 2 ^ 53) in *. set (T := 2 ^ 1074) in *.
    assert (k < Q) by (apply (Z.mul_lt_mono_pos_r P); lia).
    rewrite Hsplit. nia.
Qed.

Lemma generateCode_value_range (r : Z) :
  is_random r ->
  100000 <= Math_floor (fadd (Number_of_int 100000) (fmul r (Number_of_int 900000)))
         <= 999999.
Proof.
  intros Hr. apply is_random_le_max in Hr.
  set (K := Number_of_int 900000). set (A := Number_of_int 100000).
  assert (HK : 0 < K) by reflexivity.
  assert (HA : 0 < A) by reflexivity.
  assert (Hmul_hi : fmul r K <= fmul (2 ^ 1074 - 2 ^ 1021) K).
  { unfold fmul. apply round_double_mono; [discriminate|]. nia. }
  assert (Hmul_lo : 0 <= fmul r K).
  { unfold fmul, round_double. apply Z.mul_nonneg_nonneg.
    - apply rne_nonneg. nia.
    - apply Z.pow_nonneg. lia. }
  assert (Hadd_hi : fadd A (fmul r K) <= fadd A (fmul (2 ^ 1074 - 2 ^ 1021) K)).
  { unfold fadd. apply round_double_mono; lia. }
  assert (Hadd_lo : fadd A 0 <= fadd A (fmul r K)).
  { unfold fadd. apply round_double_mono; lia. }
  assert (Hpow : 0 < 2 ^ emin) by reflexivity.
  split.
  - transitivity (Math_floor (fadd A 0)); [vm_compute; discriminate|].
    unfold Math_floor. apply Z.div_le_mono; assumption.
  - transitivity (Math_floor (fadd A (fmul (2 ^ 1074 - 2 ^ 1021) K)));
      [|vm_compute; discriminate].
    unfold Math_floor. apply Z.div_le_mono; assumption.
Qed.

Lemma digit_char_is_digit (d : Z) : 0 <= d <= 9 -> is_digit (digit_char d) = true.
Proof.
  intros Hd. assert (Hc : In d (0 :: 1 :: 2 :: 3 :: 4 :: 5 :: 6 :: 7 :: 8 :: 9 :: nil)).
  { simpl. lia. }
  simpl in Hc. intuition (subst; reflexivity).
Qed.

Lemma digit_value_char (d : Z) : 0 <= d <= 9 -> digit_value (digit_char d) = d.
Proof.
  intros Hd. assert (Hc : In d (0 :: 1 :: 2 :: 3 :: 4 :: 5 :: 6 :: 7 :: 8 :: 9 :: nil)).
  { simpl. lia. }
  simpl in Hc. intuition (subst; reflexivity).
Qed.

(** Every string [digits_from] builds on a string of digits is one. *)
Lemma digits_from_all_digits (fuel : nat) :
  forall n acc, 0 <= n -> all_digits acc = true ->
  all_digits (digits_from fuel n acc) = true.
Proof.
  induction fuel as [|fuel IH]; intros n acc Hn Hacc; cbn [digits_from];
    [exact Hacc|].
  assert (Hd : is_digit (digit_char (n mod 10)) = true).
  { apply digit_char_is_digit. pose proof (Z.mod_pos_bound n 10). lia. }
  destruct (n <? 10).
  - cbn [all_digits]. rewrite Hd, Hacc. reflexivity.
  - apply IH.
    + apply Z.div_pos; lia.
    + cbn [all_digits]. rewrite Hd, Hacc. reflexivity.
Qed.

Lemma Number_toString_six (n : Z) :
  100000 <= n <= 999999 ->
  Number_toString n =
    String (digit_char (n / 100000))
   (String (digit_char (n / 10000 mod 10))
   (String (digit_char (n / 1000 mod 10))
   (String (digit_char (n / 100 mod 10))
   (String (digit_char (n / 10 mod 10))
   (String (digit_char (n mod 10)) EmptyString))))).
Proof.
  intros Hn. unfold Number_toString.
  assert (Hlog : 16 <= Z.log2 n) by (apply Z.log2_le_pow2; lia).
  destruct (Z.to_nat (Z.log2 n)) as [|[|[|[|[|f]]]]] eqn:Hf; try lia.
  cbn [digits_from].
  assert (E1 : n / 10 / 10 = n / 100) by (apply Z.div_div; lia).
  assert (E2 : n / 100 / 10 = n / 1000) by (apply Z.div_div; lia).
  assert (E3 : n / 1000 / 10 = n / 10000) by (apply Z.div_div; lia).
  assert (E4 : n / 10000 / 10 = n / 100000) by (apply Z.div_div; lia).
  rewrite E1, E2, E3, E4.
  destruct (Z.ltb_spec n 10); [lia|].
  destruct (Z.ltb_spec (n / 10) 10); [zdiv|].
  destruct (Z.ltb_spec (n / 100) 10); [zdiv|].
  destruct (Z.ltb_spec (n / 1000) 10); [zdiv|].
  destruct (Z.ltb_spec (n / 10000) 10); [zdiv|].
  destruct (Z.ltb_spec (n / 100000) 10); [|zdiv].
  rewrite (Z.mod_small (n / 100000) 10) by zdiv. reflexivity.
Qed.

Lemma generateCode_six_digits_aux (r : Z) :
  is_random r ->
  String.length (generateCode r) = 6%nat /\
  all_digits (generateCode r) = true /\
  100000 <= decimal_value (generateCode r) <= 999999 /\
  (exists c rest, generateCode r = String c rest /\ c <> "0"%char).
Proof.
  intros Hr. pose proof (generateCode_value_range r Hr) as Hrange.
  unfold generateCode.
  set (n := Math_floor (fadd (Number_of_int 100000) (fmul r (Number_of_int 900000)))) in *.
  assert (Hdigits : all_digits (Number_toString n) = true).
  { apply digits_from_all_digits; [lia|reflexivity]. }
  rewrite (Number_toString_six n Hrange) in *.
  split; [reflexivity|]. split; [exact Hdigits|]. split.
  - unfold decimal_value. cbn [decimal_value_from].
    rewrite !digit_value_char by zdiv. zdiv.
  - eexists _, _. split; [reflexivity|].
    assert (Hd : 1 <= n / 100000 <= 9) by zdiv.
    intros Heq. apply (f_equal digit_value) in Heq.
    rewrite digit_value_char in Heq by lia.
    change (digit_value "0"%char) with 0 in Heq. lia.
Qed.

(** C7. Every value [Math.random()] can return makes [generateCode] return
    a string of exactly six decimal digits, the first of them not [0],
    that denotes a number in [[100000, 999999]]. *)
Theorem generateCode_six_digits (r : Z) :
  is_random r ->
  String.length (generateCode r) = 6%nat /\
  all_digits (generateCode r) = true /\
  100000 <= decimal_value (generateCode r) <= 999999 /\
  (exists c rest, generateCode r = String c rest /\ c <> "0"%char).
Proof. exact (generateCode_six_digits_aux r). Qed.

Lemma is_random_half : is_random (2 ^ 1073).
Proof. split; [split|]; [discriminate | vm_compute; reflexivity | reflexivity]. Qed.

Lemma generateCode_six_digits_witness :
  is_random (2 ^ 1073) /\
  String.length (generateCode (2 ^ 1073)) = 6%nat /\
  all_digits (generateCode (2 ^ 1073)) = true.
Proof.
  pose proof is_random_half as H.
  split; [exact H|].
  destruct (generateCode_six_digits (2 ^ 1073) H) as (Hlen & Hdig & _).
  split; [exact Hlen | exact Hdig].
Defined.

(** ** Strings of digits *)

Lemma upper_char_digit (c : ascii) : is_digit c = true -> upper_char c = c.
Proof. destruct c as [[] [] [] [] [] [] [] []]; vm_compute; congruence. Qed.

Lemma upper_char_digit_inv (c : ascii) : is_digit (upper_char c) = true -> upper_char c = c.
Proof. destruct c as [[] [] [] [] [] [] [] []]; vm_compute; congruence. Qed.

Lemma toUpperCase_digits (s : string) : all_digits s = true -> toUpperCase s = s.
Proof.
  induction s as [|c s IH]; cbn [all_digits toUpperCase]; [reflexivity|].
  intros [Hc Hs]%andb_prop. rewrite upper_char_digit, IH by assumption. reflexivity.
Qed.

Lemma toUpperCase_digits_inv (s : string) :
  all_digits (toUpperCase s) = true -> toUpperCase s = s.
Proof.
  induction s as [|c s IH]; cbn [all_digits toUpperCase]; [reflexivity|].
  intros [Hc Hs]%andb_prop. rewrite upper_char_digit_inv, IH by assumption. reflexivity.
Qed.

Lemma is_code_nonempty (k : string) : is_code k -> k <> EmptyString.
Proof. intros [Hlen _] ->. discriminate. Qed.

Lemma generateCode_is_code (r : Z) : is_random r -> is_code (generateCode r).
Proof.
  intros Hr. destruct (generateCode_six_digits_aux r Hr) as (Hlen & Hdig & _).
  split; assumption.
Qed.

(** ** Header values *)

Lemma header_value_ok_app (a b : string) :
  header_value_ok (a +:+ b) = header_value_ok a && header_value_ok b.
Proof.
  induction a as [|c a IH]; [reflexivity|].
  change (String c a +:+ b) with (String c (a +:+ b)).
  cbn [header_value_ok]. rewrite IH. apply andb_assoc.
Qed.

Lemma is_digit_header_char_ok (c : ascii) : is_digit c = true -> header_char_ok c = true.
Proof. destruct c as [[] [] [] [] [] [] [] []]; vm_compute; congruence. Qed.

Lemma all_digits_header_value_ok (s : string) :
  all_digits s = true -> header_value_ok s = true.
Proof.
  induction s as [|c s IH]; cbn [all_digits header_value_ok]; [reflexivity|].
  intros [Hc Hs]%andb_prop. rewrite (is_digit_header_char_ok c Hc), (IH Hs). reflexivity.
Qed.

Lemma upper_char_header_char_ok (c : ascii) :
  header_char_ok (upper_char c) = header_char_ok c.
Proof. destruct c as [[] [] [] [] [] [] [] []]; vm_compute; reflexivity. Qed.

Lemma toUpperCase_header_value_ok (s : string) :
  header_value_ok (toUpperCase s) = header_value_ok s.
Proof.
  induction s as [|c s IH]; cbn [toUpperCase header_value_ok]; [reflexivity|].
  rewrite upper_char_header_char_ok, IH. reflexivity.
Qed.

Lemma Number_toString_header_value_ok (n : Z) :
  0 <= n -> header_value_ok (Number_toString n) = true.
Proof.
  intros Hn. apply all_digits_header_value_ok.
  unfold Number_toString. apply digits_from_all_digits; [exact Hn | reflexivity].
Qed.

Lemma or_else_header_value_ok (o : option string) (fallback : string) :
  (forall s, o = Some s -> header_value_ok s = true) ->
  header_value_ok fallback = true ->
  header_value_ok (or_else o fallback) = true.
Proof.
  intros Ho Hf. destruct o as [s|]; cbn [or_else]; [|exact Hf].
  destruct (String.eqb s EmptyString); [exact Hf | apply Ho; reflexivity].
Qed.

Lemma setHeaders_ok (hs : list (string * string)) :
  forallb (fun h => header_value_ok (snd h)) hs = true -> setHeaders hs = (hs, true).
Proof.
  induction hs as [|[name value] hs IH]; cbn [forallb setHeaders snd]; [reflexivity|].
  intros [Hv Hs]%andb_prop. rewrite Hv, (IH Hs). reflexivity.
Qed.

(** With every header value accepted, what was prepared is what is sent. *)
Lemma send_ok (res : Response) :
  forallb (fun h => header_value_ok (snd h)) (headers res) = true -> send res = res.
Proof.
  intros H. unfold send. rewrite (setHeaders_ok _ H). destruct res; reflexivity.
Qed.

(** Whatever the header values, the answer has status 200 or 500. *)
Lemma send_status (res : Response) :
  status res = 200 -> status (send res) = 200 \/ status (send res) = 500.
Proof.
  intros H. unfold send. destruct (setHeaders (headers res)) as [set [|]]; cbn [status];
    [left; exact H | right; reflexivity].
Qed.

Lemma send_file_response code' itemId item fileBuffer :
  header_value_ok code' = true ->
  header_value_ok itemId = true ->
  (forall s, fileName item = Some s -> header_value_ok s = true) ->
  (forall s, fileType item = Some s -> header_value_ok s = true) ->
  send (file_response code' itemId item fileBuffer)
  = file_response code' itemId item fileBuffer.
Proof.
  intros Hcode Hid Hname Htype. apply send_ok.
  unfold file_response. cbn [headers forallb snd].
  rewrite (or_else_header_value_ok (fileType item) "application/octet-stream" Htype)
    by reflexivity.
  rewrite !header_value_ok_app.
  rewrite (or_else_header_value_ok (fileName item) _ Hname).
  - rewrite Number_toString_header_value_ok by lia. reflexivity.
  - rewrite !header_value_ok_app, Hcode, Hid. reflexivity.
Qed.

Lemma send_data_download_response code' itemId index dataEntry item :
  header_value_ok code' = true ->
  header_value_ok itemId = true ->
  send (data_download_response code' itemId index dataEntry item)
  = data_download_response code' itemId index dataEntry item.
Proof.
  intros Hcode Hid. apply send_ok.
  unfold data_download_response. cbn [headers forallb snd].
  rewrite !header_value_ok_app, Hcode, Hid. reflexivity.
Qed.

(** ** What is written of a value *)

Lemma clone_minimize_plain :
  forall (v : JsValue) (isArrayChild : bool),
    plain v = true -> clone_minimize isArrayChild v = v.
Proof.
  fix IH 1. intros v isArrayChild Hv.
  destruct v as [| |b|n|s|ms|elems|fields]; try reflexivity.
  - cbn [clone_minimize]. f_equal.
    cbn [plain] in Hv.
    induction elems as [|x elems IHelems]; [reflexivity|].
    cbn [forallb] in Hv. apply andb_prop in Hv as [Hx Helems].
    cbn [List.map]. rewrite (IH x true Hx), (IHelems Helems). reflexivity.
  - cbn [plain] in Hv. apply andb_prop in Hv as [Hne Hfields].
    cbn [clone_minimize].
    match goal with
    | |- match ?kept with _ => _ end = _ => assert (Hkept : kept = fields)
    end.
    { clear Hne. induction fields as [|[k x] fields IHfields]; [reflexivity|].
      apply andb_prop in Hfields as [Hkx Hrest].
      apply andb_prop in Hkx as [_ Hx].
      rewrite (IH x false Hx), (IHfields Hrest).
      destruct x; try reflexivity. discriminate Hx. }
    rewrite Hkept. destruct fields as [|kv fields]; [discriminate Hne|].
    destruct isArrayChild; reflexivity.
Qed.

Lemma minimize_plain (v : JsValue) : plain v = true -> minimize v = v.
Proof. apply clone_minimize_plain. Qed.

Lemma stored_item_plain (item : DataItem) :
  plain (data item) = true -> stored_item item = item.
Proof.
  intros H. unfold stored_item. rewrite (minimize_plain _ H). destruct item; reflexivity.
Qed.

Lemma stored_doc_plain (doc : Data) :
  Forall (fun item => plain (data item) = true) (items doc) -> stored_doc doc = doc.
Proof.
  intros H. unfold stored_doc.
  assert (Hitems : List.map stored_item (items doc) = items doc).
  { induction H as [|item l Hitem _ IH]; [reflexivity|].
    cbn [List.map]. rewrite (stored_item_plain item Hitem), IH. reflexivity. }
  rewrite Hitems. destruct doc; reflexivity.
Qed.

Lemma file_items_plain (files' : list File) :
  Forall (fun item => plain (data item) = true) (map file_item files').
Proof. apply Forall_map, Forall_true. intros file. reflexivity. Qed.

(** ** Validation of a fetched document *)

Lemma forallb_insert {A : Type} (f : A -> bool) (l : list A) (i : nat) (x y : A) :
  l !! i = Some x -> f y = f x -> forallb f (<[i := y]> l) = forallb f l.
Proof.
  revert i. induction l as [|a l IH]; intros [|i] Hi Hf; try discriminate.
  - injection Hi as ->. cbn. rewrite Hf. reflexivity.
  - cbn in Hi. change (<[S i := y]> (a :: l)) with (a :: <[i := y]> l).
    cbn [forallb]. rewrite (IH i Hi Hf). reflexivity.
Qed.

Lemma validate_set_item now dataEntry index item :
  items dataEntry !! index = Some item ->
  validate (set_item dataEntry index (mark_downloaded now item)) = validate dataEntry.
Proof.
  intros Hitem. unfold validate. cbn [code items set_item].
  rewrite (forallb_insert _ _ _ item _ Hitem); reflexivity.
Qed.

Lemma validate_ok (doc : Data) :
  code doc <> EmptyString -> Forall item_ok (items doc) -> validate doc = true.
Proof.
  intros Hne Hitems. unfold validate.
  destruct (String.eqb_spec (code doc) EmptyString) as [H|_]; [contradiction|].
  cbn [negb andb]. apply forallb_forall. intros item Hin.
  rewrite Forall_forall in Hitems. apply Hitems, list_elem_of_In, Hin.
Qed.

(** ** Running a handler on its own *)

Lemma run_unique_code_loop (draws : list Z) (k : string -> Proc) (st : gmap string Data) :
  run (unique_code_loop draws k) st =
  match first_fresh draws st with
  | None => (None, st)
  | Some c => run (k c) st
  end.
Proof.
  induction draws as [|r draws IH]; cbn [unique_code_loop first_fresh run]; [reflexivity|].
  destruct (st !! generateCode r); [exact IH | reflexivity].
Qed.

Lemma first_fresh_Some (draws : list Z) (st : gmap string Data) (c : string) :
  first_fresh draws st = Some c ->
  st !! c = None /\ exists r, In r draws /\ c = generateCode r.
Proof.
  induction draws as [|r draws IH]; cbn [first_fresh]; [discriminate|].
  destruct (st !! generateCode r) eqn:E.
  - intros H. destruct (IH H) as (Hc & r' & Hin & ->).
    split; [exact Hc|]. exists r'. split; [right; exact Hin | reflexivity].
  - intros [= <-]. split; [exact E|]. exists r. split; [left|]; reflexivity.
Qed.

Lemma run_save_new (doc : Data) (k : option Thrown -> Proc) (st : gmap string Data) :
  run (save_new doc k) st =
  if validate doc
  then match st !! code doc with
       | Some _ => run (k (Some DuplicateKeyError)) st
       | None => run (k None) (<[code doc := stored_doc doc]> st)
       end
  else run (k (Some ValidationError)) st.
Proof. unfold save_new. destruct (validate doc); reflexivity. Qed.

Lemma run_save_fetched (doc : Data) (upd : Update) (k : option Thrown -> Proc)
    (st : gmap string Data) :
  run (save_fetched doc upd k) st =
  if validate doc
  then match st !! code doc with
       | Some stored => run (k None) (<[code doc := apply_update upd stored]> st)
       | None => run (k (Some DocumentNotFoundError)) st
       end
  else run (k (Some ValidationError)) st.
Proof. unfold save_fetched. destruct (validate doc); reflexivity. Qed.

Lemma run_store_generated now data' multipleData code' st :
  run (store_generated now data' multipleData code') st =
  let items' := body_items data' multipleData in
  if validate (new_DataModel now code' items')
  then match st !! code' with
       | Some _ => (Some (error_json 500 "Failed to generate code"), st)
       | None => (Some (generated_response code' items'),
                  <[code' := stored_doc (new_DataModel now code' items')]> st)
       end
  else (Some (error_json 500 "Failed to generate code"), st).
Proof.
  unfold store_generated. cbv zeta. rewrite run_save_new.
  destruct (validate _); [|reflexivity].
  cbn [code new_DataModel]. destruct (st !! code'); reflexivity.
Qed.

Lemma run_store_uploaded now files' code' st :
  run (store_uploaded now files' code') st =
  let items' := map file_item files' in
  if validate (new_DataModel now code' items')
  then match st !! code' with
       | Some _ => (Some (error_json 500
                      "Failed to upload file: E11000 duplicate key error"), st)
       | None => (Some (uploaded_response code' items'),
                  <[code' := stored_doc (new_DataModel now code' items')]> st)
       end
  else (Some (error_json 500 "Failed to upload file: Data validation failed"), st).
Proof.
  unfold store_uploaded. cbv zeta. rewrite run_save_new.
  destruct (validate _); [|reflexivity].
  cbn [code new_DataModel]. destruct (st !! code'); reflexivity.
Qed.

Lemma run_generate_code now draws data' multipleData st :
  run (generate_code now draws data' multipleData) st =
  if data_missing data' multipleData
  then (Some (error_json 400 "Data is required"), st)
  else match first_fresh draws st with
       | None => (None, st)
       | Some c => run (store_generated now data' multipleData c) st
       end.
Proof.
  unfold generate_code. destruct (data_missing _ _); [reflexivity|].
  apply run_unique_code_loop.
Qed.

Lemma run_upload_file now draws files st :
  run (upload_file now draws files) st =
  match files with
  | None | Some [] => (Some (error_json 400 "At least one file is required"), st)
  | Some files' =>
      match first_fresh draws st with
      | None => (None, st)
      | Some c => run (store_uploaded now files' c) st
      end
  end.
Proof.
  destruct files as [[|f fs]|]; try reflexivity.
  apply run_unique_code_loop.
Qed.

(** Scenario A of the specification: one text value in, one item out. *)
Example scenario_A :
  let '(res, st) := run (generate_code 1000 [2 ^ 1073] (JStr "hello") JUndefined) ∅ in
  res = Some (generated_response "550000" [data_item (JStr "hello")]) /\
  fst (run (get_data "550000") st)
  = Some (data_response (new_DataModel 1000 "550000" [data_item (JStr "hello")])).
Proof. vm_compute. split; reflexivity. Qed.

(** ** Well-formed stores *)

Lemma store_ok_lookup (st : gmap string Data) (k : string) (doc : Data) :
  store_ok st -> st !! k = Some doc ->
  code doc = k /\ toUpperCase k = k /\ k <> EmptyString /\ Forall item_ok (items doc).
Proof.
  intros Hok Hk. destruct (Hok k doc Hk) as (Hcode & Hk6 & Hitems).
  repeat split; try assumption.
  - apply toUpperCase_digits, Hk6.
  - apply is_code_nonempty, Hk6.
Qed.

(** A code with no record has none under its upper-case form either. *)
Lemma store_ok_absent (st : gmap string Data) (c : string) :
  store_ok st -> st !! c = None -> st !! toUpperCase c = None.
Proof.
  intros Hok Hc. destruct (st !! toUpperCase c) as [doc|] eqn:E; [|reflexivity].
  destruct (Hok _ _ E) as (_ & [_ Hdig] & _).
  rewrite (toUpperCase_digits_inv c Hdig) in E. congruence.
Qed.

Lemma store_ok_validate (st : gmap string Data) (k : string) (doc : Data) :
  store_ok st -> st !! k = Some doc -> validate doc = true.
Proof.
  intros Hok Hk. destruct (store_ok_lookup st k doc Hok Hk) as (Hcode & _ & Hne & Hitems).
  apply validate_ok; [rewrite Hcode; exact Hne | exact Hitems].
Qed.


Lemma sample_store_ok : store_ok sample_store.
Proof.
  intros k doc Hk. unfold sample_store in Hk.
  apply lookup_singleton_Some in Hk as [<- <-].
  split; [reflexivity|]. split; [split; reflexivity|].
  repeat constructor; try reflexivity.
  - discriminate.
  - intros _. eexists. reflexivity.
Qed.

(** ** Consumption, one request at a time *)

Lemma run_download_in_range now code' itemId st dataEntry index item :
  store_ok st ->
  st !! code' = Some dataEntry ->
  parseInt itemId = Some index ->
  0 <= index < Z.of_nat (length (items dataEntry)) ->
  items dataEntry !! Z.to_nat index = Some item ->
  run (download now code' itemId) st =
  if downloaded item
  then (Some (error_json 410 "This item has already been downloaded"), st)
  else
    (Some (sent_response now code' itemId index dataEntry item),
     <[code' := set_item dataEntry (Z.to_nat index) (mark_downloaded now item)]> st).
Proof.
  intros Hok Hst Hparse Hrange Hitem.
  destruct (store_ok_lookup st code' dataEntry Hok Hst) as (Hcode & Hup & _ & Hitems).
  unfold download. rewrite Hparse. cbn [run]. rewrite Hup, Hst.
  cbn [js_lt js_ge array_get].
  destruct (Z.ltb_spec index 0); [lia|].
  destruct (Z.leb_spec (Z.of_nat (length (items dataEntry))) index); [lia|].
  cbn [orb]. rewrite Hitem.
  destruct (downloaded item) eqn:Hd; [reflexivity|].
  rewrite run_save_fetched, (validate_set_item now dataEntry _ item Hitem).
  rewrite (store_ok_validate st code' dataEntry Hok Hst).
  cbn [code set_item]. rewrite Hcode, Hst.
  cbn [apply_update]. rewrite Hitem.
  unfold sent_response. cbn [isFile data mark_downloaded].
  destruct (isFile item) eqn:Hfile; [|reflexivity].
  assert (Hi : item_ok item).
  { eapply Forall_lookup_1; eassumption. }
  destruct Hi as [_ Hs]. destruct (Hs Hfile) as [s ->]. reflexivity.
Qed.

(** The answer of a download that marked its item: when the index text
    and, for a file, its name and type may stand in a header, status 200
    with the payload; status 200 or 500 whatever they are. *)
Lemma sent_response_ok now code' itemId index dataEntry item :
  header_value_ok code' = true ->
  attachment_ok itemId item ->
  sent_response now code' itemId index dataEntry item
  = if isFile item
    then file_response code' itemId (mark_downloaded now item)
           (default [] (Buffer_from_base64 (data item)))
    else data_download_response code' itemId index
           (set_item dataEntry (Z.to_nat index) (mark_downloaded now item))
           (mark_downloaded now item).
Proof.
  intros Hcode [Hid Hfile]. unfold sent_response. cbn [isFile data mark_downloaded].
  destruct (isFile item).
  - destruct (Hfile eq_refl) as [Hname Htype].
    apply send_file_response; assumption.
  - apply send_data_download_response; assumption.
Qed.




(** C1. A download can mark its item and still answer with an error.
    Item 0 of the record 482913 is a value, not yet downloaded.  The
    index text made of the digit 0 and the character of code 127 is read
    as the index 0 (line 268); the item is marked and the record saved
    (lines 289-291); then [res.setHeader] refuses the attachment name
    made of that text (line 323) and the [catch] answers with status
    500, "Failed to download data", and no payload.  The record is
    stored with item 0 downloaded, and the next download of item 0
    answers 410. *)
Theorem download_marks_item_then_fails :
  let itemId := "0" +:+ del in
  let '(res, st) := run (download 2000 "482913" itemId) sample_store in
  parseInt itemId = Some 0 /\
  downloaded <$> items sample_record !! 0%nat = Some false /\
  res = Some {| status := 500;
                headers := [("Content-Type", "application/json")];
                body := ResJson (JObj [("error", JStr "Failed to download data")]) |} /\
  (exists dataEntry item',
     st !! "482913" = Some dataEntry /\
     items dataEntry !! 0%nat = Some item' /\
     downloaded item' = true /\
     downloadedAt item' = Some 2000 /\
     data item' = JStr "hello") /\
  run (download 3000 "482913" "0") st
  = (Some (error_json 410 "This item has already been downloaded"), st).
Proof.
  vm_compute.
  split; [reflexivity|]. split; [reflexivity|]. split; [reflexivity|].
  split; [|reflexivity].
  eexists _, _. split; [reflexivity|]. repeat split.
Qed.

(** The same with a file whose name holds a line feed: the download marks
    the item, and the answer is status 500 with no payload. *)
Example download_file_name_refused :
  let file := {| buffer := [Byte.x4d]; originalname := "a" +:+ String (ascii_of_nat 10) "b";
                 mimetype := "text/plain"; size := 1 |} in
  let st := <["550000" := new_DataModel 1000 "550000" [file_item file]]> sample_store in
  let '(res, st') := run (download 2000 "550000" "0") st in
  status <$> res = Some 500 /\
  (exists dataEntry item',
     st' !! "550000" = Some dataEntry /\ items dataEntry !! 0%nat = Some item' /\
     downloaded item' = true) /\
  run (download 3000 "550000" "0") st'
  = (Some (error_json 410 "This item has already been downloaded"), st').
Proof.
  vm_compute. split; [reflexivity|]. split; [|reflexivity].
  eexists _, _. repeat split.
Qed.

(** ** Indices out of range, and indices that are no number *)

Lemma run_download_absent now code' itemId st :
  st !! toUpperCase code' = None ->
  run (download now code' itemId) st = (Some (error_json 404 "Data not found"), st).
Proof. intros Hst. unfold download. cbn [run]. rewrite Hst. reflexivity. Qed.

Lemma run_download_out_of_range now code' itemId st dataEntry index :
  store_ok st ->
  st !! code' = Some dataEntry ->
  parseInt itemId = Some index ->
  ~ (0 <= index < Z.of_nat (length (items dataEntry))) ->
  run (download now code' itemId) st = (Some (error_json 404 "Item not found"), st).
Proof.
  intros Hok Hst Hparse Hrange.
  destruct (store_ok_lookup st code' dataEntry Hok Hst) as (_ & Hup & _).
  unfold download. rewrite Hparse. cbn [run]. rewrite Hup, Hst.
  cbn [js_lt js_ge].
  destruct (Z.ltb_spec index 0); [reflexivity|].
  destruct (Z.leb_spec (Z.of_nat (length (items dataEntry))) index); [reflexivity|lia].
Qed.

(** [parseInt] of a text without leading digits is [NaN]; both comparisons
    of line 276 are then false, [dataEntry.items[NaN]] is [undefined], and
    reading [item.downloaded] throws into the [catch] of line 329. *)
Lemma run_download_not_a_number now code' itemId st dataEntry :
  store_ok st ->
  st !! code' = Some dataEntry ->
  parseInt itemId = None ->
  run (download now code' itemId) st = (Some (error_json 500 "Failed to download data"), st).
Proof.
  intros Hok Hst Hparse.
  destruct (store_ok_lookup st code' dataEntry Hok Hst) as (_ & Hup & _).
  unfold download. rewrite Hparse. cbn [run]. rewrite Hup, Hst. reflexivity.
Qed.

(** C6. The index check of a download lets a non-numeric index through:
    on the stored record 482913, the index [abc] is answered with status
    500, "Failed to download data", not with 404; the store is untouched.
    A numeric index out of range is answered with 404
    ([run_download_out_of_range]). *)
Theorem download_non_numeric_index :
  parseInt "abc" = None /\
  sample_store !! "482913" = Some sample_record /\
  run (download 2000 "482913" "abc") sample_store
  = (Some (error_json 500 "Failed to download data"), sample_store).
Proof.
  split; [reflexivity|]. split; [reflexivity|].
  apply (run_download_not_a_number 2000 "482913" "abc" sample_store sample_record
           sample_store_ok); reflexivity.
Qed.

(** ** Verification and the metadata read *)

Lemma run_verify_code_found now c st dataEntry :
  store_ok st ->
  st !! c = Some dataEntry ->
  run (verify_code now (JStr c)) st
  = (Some (verify_response (mark_verified now dataEntry)),
     <[c := mark_verified now dataEntry]> st).
Proof.
  intros Hok Hst.
  destruct (store_ok_lookup st c dataEntry Hok Hst) as (Hcode & Hup & Hne & _).
  unfold verify_code. cbn [truthy].
  destruct (String.eqb_spec c EmptyString) as [->|_]; [congruence|].
  cbn [negb run]. rewrite Hup, Hst, run_save_fetched.
  change (validate (mark_verified now dataEntry)) with (validate dataEntry).
  rewrite (store_ok_validate st c dataEntry Hok Hst).
  cbn [code mark_verified]. rewrite Hcode, Hst. reflexivity.
Qed.


Lemma run_get_data_found c st dataEntry :
  store_ok st ->
  st !! c = Some dataEntry ->
  run (get_data c) st = (Some (data_response dataEntry), st).
Proof.
  intros Hok Hst.
  destruct (store_ok_lookup st c dataEntry Hok Hst) as (_ & Hup & _).
  unfold get_data. cbn [run]. rewrite Hup, Hst. reflexivity.
Qed.

Lemma listed_item_verify_response (dataEntry : Data) (i : nat) :
  listed_item (verify_response dataEntry) i = item_info i <$> items dataEntry !! i.
Proof. unfold listed_item. cbn. apply list_lookup_imap. Qed.

Lemma listed_item_data_response (dataEntry : Data) (i : nat) :
  listed_item (data_response dataEntry) i = item_info i <$> items dataEntry !! i.
Proof. unfold listed_item. cbn. apply list_lookup_imap. Qed.

(** The verified record differs from the stored one in two fields. *)
Lemma mark_verified_fields now dataEntry :
  verified (mark_verified now dataEntry) = true /\
  verifiedAt (mark_verified now dataEntry) = Some now /\
  code (mark_verified now dataEntry) = code dataEntry /\
  items (mark_verified now dataEntry) = items dataEntry /\
  createdAt (mark_verified now dataEntry) = createdAt dataEntry.
Proof. repeat split. Qed.






(** ** Invariants under any schedule *)

Lemma apply_update_code (upd : Update) (stored : Data) :
  code (apply_update upd stored) = code stored.
Proof.
  destruct upd as [now|index now]; cbn [apply_update]; [reflexivity|].
  destruct (items stored !! index); reflexivity.
Qed.

Lemma step_keyed (p : Proc) (st : gmap string Data) :
  keyed st -> keyed (snd (step p st)).
Proof.
  intros Hk. destruct p as [res| |c k|doc k|c upd k|c k]; cbn [step snd]; try exact Hk.
  - destruct (st !! code doc) as [old|]; cbn [snd]; [exact Hk|].
    intros k' d [[<- <-]|[_ H]]%lookup_insert_Some; [reflexivity | exact (Hk _ _ H)].
  - destruct (st !! c) as [old|] eqn:Hc; cbn [snd]; [|exact Hk].
    intros k' d [[<- <-]|[_ H]]%lookup_insert_Some; [|exact (Hk _ _ H)].
    rewrite apply_update_code. exact (Hk _ _ Hc).
  - intros k' d [_ H]%lookup_delete_Some. exact (Hk _ _ H).
Qed.

Lemma step_keeps (P : Data -> Prop) (p : Proc) (st : gmap string Data) :
  store_all P st -> proc_keeps P p ->
  store_all P (snd (step p st)) /\ proc_keeps P (fst (step p st)).
Proof.
  intros Hst Hp.
  destruct p as [res| |c k|doc k|c upd k|c k]; cbn [step fst snd proc_keeps] in *.
  - split; [exact Hst | exact I].
  - split; [exact Hst | exact I].
  - split; [exact Hst|]. apply Hp. intros doc Hdoc. exact (Hst _ _ Hdoc).
  - destruct Hp as [Hdoc Hk]. destruct (st !! code doc) as [old|]; cbn [fst snd].
    + split; [exact Hst | apply Hk].
    + split; [|apply Hk].
      intros k' d [[_ <-]|[_ H]]%lookup_insert_Some; [exact Hdoc | exact (Hst _ _ H)].
  - destruct Hp as [Hupd Hk]. destruct (st !! c) as [old|] eqn:Hc; cbn [fst snd].
    + split; [|apply Hk].
      intros k' d [[_ <-]|[_ H]]%lookup_insert_Some; [|exact (Hst _ _ H)].
      apply Hupd. exact (Hst _ _ Hc).
    + split; [exact Hst | apply Hk].
  - split; [|exact Hp].
    intros k' d [_ H]%lookup_delete_Some. exact (Hst _ _ H).
Qed.

Lemma run_keeps (P : Data -> Prop) (p : Proc) :
  forall st, store_all P st -> proc_keeps P p -> store_all P (snd (run p st)).
Proof.
  induction p as [res| |c k IH|doc k IH|c upd k IH|c k IH]; intros st Hst Hp;
    cbn [run snd proc_keeps] in *; try exact Hst.
  - apply IH; [exact Hst|]. apply Hp. intros doc Hdoc. exact (Hst _ _ Hdoc).
  - destruct Hp as [Hdoc Hk]. destruct (st !! code doc) as [old|].
    + apply IH; [exact Hst | apply Hk].
    + apply IH; [|apply Hk].
      intros k' d [[_ <-]|[_ H]]%lookup_insert_Some; [exact Hdoc | exact (Hst _ _ H)].
  - destruct Hp as [Hupd Hk]. destruct (st !! c) as [old|] eqn:Hc.
    + apply IH; [|apply Hk].
      intros k' d [[_ <-]|[_ H]]%lookup_insert_Some; [|exact (Hst _ _ H)].
      apply Hupd. exact (Hst _ _ Hc).
    + apply IH; [exact Hst | apply Hk].
  - apply IH; [|exact Hp].
    intros k' d [_ H]%lookup_delete_Some. exact (Hst _ _ H).
Qed.

Lemma run_keyed (p : Proc) :
  forall st, keyed st -> keyed (snd (run p st)).
Proof.
  induction p as [res| |c k IH|doc k IH|c upd k IH|c k IH]; intros st Hst;
    cbn [run snd]; try exact Hst.
  - apply IH, Hst.
  - destruct (st !! code doc) as [old|]; apply IH; [exact Hst|].
    intros k' d [[<- <-]|[_ H]]%lookup_insert_Some; [reflexivity | exact (Hst _ _ H)].
  - destruct (st !! c) as [old|] eqn:Hc; apply IH; [|exact Hst].
    intros k' d [[<- <-]|[_ H]]%lookup_insert_Some; [|exact (Hst _ _ H)].
    rewrite apply_update_code. exact (Hst _ _ Hc).
  - apply IH. intros k' d [_ H]%lookup_delete_Some. exact (Hst _ _ H).
Qed.

Lemma interleave_keeps (P : Data -> Prop) (sched : list nat) :
  forall pool st,
    store_all P st -> Forall (proc_keeps P) pool ->
    store_all P (snd (interleave sched pool st)) /\
    Forall (proc_keeps P) (fst (interleave sched pool st)).
Proof.
  induction sched as [|i sched IH]; intros pool st Hst Hpool; cbn [interleave].
  - split; assumption.
  - destruct (pool !! i) as [p|] eqn:Hi; [|apply IH; assumption].
    assert (Hp : proc_keeps P p) by (eapply Forall_lookup_1; eassumption).
    destruct (step_keeps P p st Hst Hp) as [Hst' Hp'].
    destruct (step p st) as [p' st']. cbn [fst snd] in *.
    apply IH; [exact Hst'|]. apply Forall_insert; assumption.
Qed.

Lemma unique_code_loop_keeps (P : Data -> Prop) (draws : list Z) (k : string -> Proc) :
  (forall r, In r draws -> proc_keeps P (k (generateCode r))) ->
  proc_keeps P (unique_code_loop draws k).
Proof.
  induction draws as [|r draws IH]; intros Hk; cbn [unique_code_loop proc_keeps]; [exact I|].
  intros [doc|] _.
  - apply IH. intros r' Hr'. apply Hk. right. exact Hr'.
  - apply Hk. left. reflexivity.
Qed.

Lemma save_new_keeps (P : Data -> Prop) (doc : Data) (k : option Thrown -> Proc) :
  (validate doc = true -> P (stored_doc doc)) -> (forall thrown, proc_keeps P (k thrown)) ->
  proc_keeps P (save_new doc k).
Proof.
  intros Hdoc Hk. unfold save_new. destruct (validate doc); [|apply Hk].
  cbn [proc_keeps]. split; [apply Hdoc; reflexivity|]. intros stored. apply Hk.
Qed.

Lemma save_fetched_keeps (P : Data -> Prop) (doc : Data) (upd : Update)
    (k : option Thrown -> Proc) :
  (forall stored, P stored -> P (apply_update upd stored)) ->
  (forall thrown, proc_keeps P (k thrown)) ->
  proc_keeps P (save_fetched doc upd k).
Proof.
  intros Hupd Hk. unfold save_fetched. destruct (validate doc); [|apply Hk].
  split; [exact Hupd|]. intros found. apply Hk.
Qed.

(** The ingestion routes, verification and consumption write documents
    that satisfy [P] whenever new records, verified records and records
    with one more item consumed do. *)
Lemma handler_keeps (P : Data -> Prop) now draws req :
  (forall r items', In r draws ->
     validate (new_DataModel now (generateCode r) items') = true ->
     Forall unconsumed items' ->
     (Forall (fun item => isFile item = true -> exists s, data item = JStr s) items') ->
     (plain_request req -> Forall (fun item => plain (data item) = true) items') ->
     P (stored_doc (new_DataModel now (generateCode r) items'))) ->
  (forall doc, P doc -> P (mark_verified now doc)) ->
  (forall doc index item,
     P doc -> items doc !! index = Some item ->
     P (set_item doc index (mark_downloaded now item))) ->
  proc_keeps P (handler now draws req).
Proof.
  intros Hnew Hver Hcon.
  assert (Hupd : forall index stored,
            P stored -> P (apply_update (SetDownloaded index now) stored)).
  { intros index stored Hstored. cbn [apply_update].
    destruct (items stored !! index) as [item|] eqn:Hitem; [|exact Hstored].
    apply Hcon; assumption. }
  destruct req as [data' multipleData|files|code'|code'|code' itemId|code'|];
    cbn [handler].
  - unfold generate_code. destruct (data_missing _ _); [exact I|].
    apply unique_code_loop_keeps. intros r Hr. unfold store_generated.
    apply save_new_keeps.
    + intros Hval. apply Hnew; [exact Hr | exact Hval | | |].
      * unfold body_items. destruct (_ && _).
        -- apply Forall_map, Forall_true. intros v. split; reflexivity.
        -- repeat constructor.
      * unfold body_items. destruct (_ && _).
        -- apply Forall_map, Forall_true. intros v. discriminate.
        -- repeat constructor. discriminate.
      * intros Hplain. exact Hplain.
    + intros [e|]; exact I.
  - unfold upload_file. destruct files as [[|f fs]|]; try exact I.
    apply unique_code_loop_keeps. intros r Hr. unfold store_uploaded.
    apply save_new_keeps.
    + intros Hval. apply Hnew; [exact Hr | exact Hval | | |].
      * apply Forall_map, Forall_true. intros v. split; reflexivity.
      * apply Forall_map, Forall_true. intros v _. eexists. reflexivity.
      * intros _. apply file_items_plain.
    + intros [e|]; unfold catch_upload_file; [destruct (is_limit_file_size _)|]; exact I.
  - unfold verify_code. destruct (negb (truthy code')); [exact I|].
    destruct code'; try exact I.
    cbn [proc_keeps]. intros [doc|] Hfound; [|exact I].
    apply save_fetched_keeps; [exact Hver|].
    intros [e|]; exact I.
  - unfold get_data. cbn [proc_keeps]. intros [doc|] _; exact I.
  - unfold download. cbn [proc_keeps]. intros [doc|] Hfound; [|exact I].
    destruct (_ || _); [exact I|].
    destruct (array_get (items doc) (parseInt itemId)) as [item|] eqn:Hget; [|exact I].
    destruct (parseInt itemId) as [index|]; [|exact I].
    destruct (downloaded item) eqn:Hd; [exact I|].
    apply save_fetched_keeps; [apply Hupd|].
    intros [e|]; [exact I|].
    destruct (isFile _); [destruct (Buffer_from_base64 _)|]; exact I.
  - unfold delete_data. cbn [proc_keeps]. intros [doc|] _; exact I.
  - exact I.
Qed.

Lemma unconsumed_consumed_inv (item : DataItem) : unconsumed item -> consumed_inv item.
Proof.
  intros [Hd Hat]. unfold consumed_inv. rewrite Hd, Hat. split.
  - discriminate.
  - intros [t Ht]. discriminate.
Qed.

Lemma mark_downloaded_consumed_inv now item : consumed_inv (mark_downloaded now item).
Proof. split; [intros _; eexists|]; reflexivity. Qed.

Lemma handler_keeps_consumed_inv now draws req :
  proc_keeps doc_consumed_inv (handler now draws req).
Proof.
  apply handler_keeps.
  - intros r items' _ _ Hun _ _. unfold doc_consumed_inv.
    cbn [items stored_doc new_DataModel]. apply Forall_map.
    eapply Forall_impl; [exact Hun|].
    intros item Hitem. apply unconsumed_consumed_inv. exact Hitem.
  - intros doc Hdoc. exact Hdoc.
  - intros doc index item Hdoc _. unfold doc_consumed_inv in *. cbn [items set_item].
    apply Forall_insert; [exact Hdoc | apply mark_downloaded_consumed_inv].
Qed.

Lemma validate_items_present (doc : Data) :
  validate doc = true -> Forall (fun item => is_present (data item) = true) (items doc).
Proof.
  unfold validate. intros [_ H]%andb_prop.
  apply Forall_forall. intros item Hin.
  rewrite forallb_forall in H. apply H. apply list_elem_of_In. exact Hin.
Qed.

Lemma handler_keeps_doc_ok now draws req :
  Forall is_random draws -> plain_request req ->
  proc_keeps doc_ok (handler now draws req).
Proof.
  intros Hdraws Hreq. apply handler_keeps.
  - intros r items' Hr Hval _ Hfiles Hplain.
    rewrite (stored_doc_plain (new_DataModel now (generateCode r) items') (Hplain Hreq)).
    split.
    + cbn [code new_DataModel]. apply generateCode_is_code.
      rewrite Forall_forall in Hdraws. apply Hdraws, list_elem_of_In, Hr.
    + cbn [items new_DataModel].
      pose proof (validate_items_present _ Hval) as Hpres. cbn [items new_DataModel] in Hpres.
      rewrite Forall_forall in *. intros item Hin. split; [apply Hpres | apply Hfiles]; exact Hin.
  - intros doc Hdoc. exact Hdoc.
  - intros doc index item [Hcode Hitems] Hitem. split; [exact Hcode|].
    cbn [items set_item]. apply Forall_insert; [exact Hitems|].
    exact (Forall_lookup_1 _ _ _ _ Hitems Hitem).
Qed.

Lemma store_ok_split (st : gmap string Data) :
  store_ok st <-> keyed st /\ store_all doc_ok st.
Proof.
  split.
  - intros Hok. split; intros k doc Hk; destruct (Hok k doc Hk) as (Hcode & Hk6 & Hitems).
    + exact Hcode.
    + split; [rewrite Hcode; exact Hk6 | exact Hitems].
  - intros [Hkeyed Hall] k doc Hk. pose proof (Hkeyed k doc Hk) as Hcode.
    destruct (Hall k doc Hk) as [Hk6 Hitems]. rewrite Hcode in Hk6. auto.
Qed.

Lemma store_ok_empty : store_ok ∅.
Proof. intros k doc Hk. rewrite lookup_empty in Hk. discriminate. Qed.

(** Every request whose values to store are plain leaves a well-formed
    store well-formed. *)
Lemma handler_store_ok now draws req st :
  Forall is_random draws -> plain_request req -> store_ok st ->
  store_ok (snd (run (handler now draws req) st)).
Proof.
  intros Hdraws Hreq [Hkeyed Hall]%store_ok_split. apply store_ok_split. split.
  - apply run_keyed, Hkeyed.
  - apply run_keeps; [exact Hall | apply handler_keeps_doc_ok; assumption].
Qed.

Lemma interleave_keyed (sched : list nat) :
  forall pool st, keyed st -> keyed (snd (interleave sched pool st)).
Proof.
  induction sched as [|i sched IH]; intros pool st Hst; cbn [interleave]; [exact Hst|].
  destruct (pool !! i) as [p|]; [|apply IH, Hst].
  pose proof (step_keyed p st Hst) as Hst'.
  destruct (step p st) as [p' st']. apply IH, Hst'.
Qed.

(** So does every interleaving of such requests. *)
Lemma interleave_store_ok (sched : list nat) (reqs : list (Z * list Z * Request)) st :
  Forall (fun '(_, draws, req) => Forall is_random draws /\ plain_request req) reqs ->
  store_ok st ->
  store_ok (snd (interleave sched
                   (map (fun '(now, draws, req) => handler now draws req) reqs) st)).
Proof.
  intros Hdraws [Hkeyed Hall]%store_ok_split. apply store_ok_split. split.
  - apply interleave_keyed, Hkeyed.
  - apply (interleave_keeps doc_ok); [exact Hall|].
    apply Forall_map. eapply Forall_impl; [exact Hdraws|].
    intros [[now draws] req] [Hd Hreq]. apply handler_keeps_doc_ok; assumption.
Qed.

Lemma body_items_unconsumed data' multipleData :
  Forall unconsumed (body_items data' multipleData).
Proof.
  unfold body_items. destruct (_ && _).
  - apply Forall_map, Forall_true. intros v. split; reflexivity.
  - repeat constructor.
Qed.

Lemma file_items_unconsumed (files' : list File) :
  Forall unconsumed (map file_item files').
Proof. apply Forall_map, Forall_true. intros v. split; reflexivity. Qed.

Lemma stored_items_unconsumed (items' : list DataItem) :
  Forall unconsumed items' -> Forall unconsumed (List.map stored_item items').
Proof.
  intros H. apply Forall_map. eapply Forall_impl; [exact H|].
  intros item Hitem. exact Hitem.
Qed.

(** What a request does to the store is one of five things. *)
Lemma handler_effect now draws req st :
  keyed st -> request_effect st (snd (run (handler now draws req) st)).
Proof.
  intros Hkeyed.
  destruct req as [data' multipleData|files|code'|code'|code' itemId|code'|];
    cbn [handler].
  - rewrite run_generate_code. destruct (data_missing _ _); [constructor|].
    destruct (first_fresh draws st) as [c|] eqn:Hc; [|constructor].
    apply first_fresh_Some in Hc as [Hc _].
    rewrite run_store_generated. cbv zeta.
    destruct (validate _); [|constructor]. rewrite Hc. cbn [snd].
    apply (effect_created st
             (stored_doc (new_DataModel now c (body_items data' multipleData))));
      try reflexivity; [exact Hc | apply stored_items_unconsumed, body_items_unconsumed].
  - rewrite run_upload_file. destruct files as [[|f fs]|]; try constructor.
    destruct (first_fresh draws st) as [c|] eqn:Hc; [|constructor].
    apply first_fresh_Some in Hc as [Hc _].
    rewrite run_store_uploaded. cbv zeta.
    destruct (validate _); [|constructor]. rewrite Hc. cbn [snd].
    apply (effect_created st (stored_doc (new_DataModel now c (map file_item (f :: fs)))));
      try reflexivity; [exact Hc | apply stored_items_unconsumed, file_items_unconsumed].
  - unfold verify_code. destruct (negb (truthy code')); [constructor|].
    destruct code'; try constructor.
    cbn [run]. destruct (st !! toUpperCase s) as [doc|] eqn:Hdoc; [|constructor].
    rewrite run_save_fetched. destruct (validate _); [|constructor].
    cbn [code mark_verified apply_update].
    pose proof (Hkeyed _ _ Hdoc) as Hcode. rewrite Hcode, Hdoc. cbn [run snd].
    rewrite <- Hcode in Hdoc |- *. apply effect_verified. exact Hdoc.
  - unfold get_data. cbn [run]. destruct (st !! toUpperCase code'); constructor.
  - unfold download. cbn [run].
    destruct (st !! toUpperCase code') as [doc|] eqn:Hdoc; [|constructor].
    destruct (_ || _); [constructor|].
    destruct (array_get (items doc) (parseInt itemId)) as [item|] eqn:Hget; [|constructor].
    destruct (parseInt itemId) as [index|]; [|constructor].
    destruct (downloaded item) eqn:Hd; [constructor|].
    rewrite run_save_fetched. destruct (validate _); [|constructor].
    cbn [code set_item apply_update].
    pose proof (Hkeyed _ _ Hdoc) as Hcode. rewrite Hcode, Hdoc.
    cbn [array_get] in Hget. destruct (index <? 0); [discriminate|].
    rewrite Hget.
    assert (Heff : request_effect st
              (<[code doc := set_item doc (Z.to_nat index) (mark_downloaded now item)]> st)).
    { apply effect_consumed; [rewrite Hcode; exact Hdoc | exact Hget | exact Hd]. }
    rewrite Hcode in Heff. cbn [isFile data mark_downloaded].
    destruct (isFile item); [destruct (Buffer_from_base64 (data item))|]; exact Heff.
  - unfold delete_data. cbn [run].
    destruct (st !! toUpperCase code') as [doc|] eqn:Hdoc; [|constructor].
    cbn [run snd]. apply effect_deleted. rewrite Hdoc. eexists. reflexivity.
  - constructor.
Qed.

(** C8. An item's [downloaded] flag is true exactly when its
    [downloadedAt] is set: in the empty store, in every item the two
    ingestion routes make (flag false, no time), and after every request
    (ingestion, verification, metadata read, download, deletion), run on
    its own or interleaved with others; the one assignment to either
    field sets both, in a download of an item not yet downloaded. *)
Theorem consumed_flag_and_time_together :
  store_consumed_inv ∅ /\
  (forall value, unconsumed (data_item value)) /\
  (forall file, unconsumed (file_item file)) /\
  (forall now item,
     downloaded (mark_downloaded now item) = true /\
     downloadedAt (mark_downloaded now item) = Some now) /\
  (forall now draws req st,
     store_consumed_inv st ->
     store_consumed_inv (snd (run (handler now draws req) st))) /\
  (forall sched (reqs : list (Z * list Z * Request)) st,
     store_consumed_inv st ->
     store_consumed_inv
       (snd (interleave sched
               (map (fun '(now, draws, req) => handler now draws req) reqs) st))) /\
  (forall now draws req st,
     keyed st -> request_effect st (snd (run (handler now draws req) st))).
Proof.
  split; [intros k doc Hk; rewrite lookup_empty in Hk; discriminate|].
  split; [intros v; split; reflexivity|].
  split; [intros f; split; reflexivity|].
  split; [intros now item; split; reflexivity|].
  split; [|split].
  - intros now draws req st Hst.
    apply (run_keeps doc_consumed_inv); [exact Hst | apply handler_keeps_consumed_inv].
  - intros sched reqs st Hst.
    apply (interleave_keeps doc_consumed_inv); [exact Hst|].
    apply Forall_map, Forall_true. intros [[now draws] req].
    apply handler_keeps_consumed_inv.
  - intros now draws req st. apply handler_effect.
Qed.

Lemma consumed_flag_and_time_together_witness :
  store_consumed_inv sample_store /\
  store_consumed_inv (snd (run (handler 2000 [] (GetDownload "482913" "1")) sample_store)) /\
  snd (run (handler 2000 [] (GetDownload "482913" "1")) sample_store) !! "482913"
  = Some (set_item sample_record 1 (mark_downloaded 2000 sample_file)).
Proof.
  assert (H : store_consumed_inv sample_store).
  { intros k doc Hk. unfold sample_store in Hk.
    apply lookup_singleton_Some in Hk as [_ <-].
    cbn [items sample_record new_DataModel].
    repeat (constructor; [apply unconsumed_consumed_inv; split; reflexivity|]).
    constructor. }
  split; [exact H|]. split.
  - destruct consumed_flag_and_time_together as (_ & _ & _ & _ & Hrun & _).
    apply Hrun, H.
  - reflexivity.
Defined.

(** ** Payload visibility *)




(** ** Structured ingestion *)

Lemma truthy_is_present (v : JsValue) : truthy v = true -> is_present v = true.
Proof. destruct v; cbn; congruence. Qed.

Lemma validate_new now c items' :
  c <> EmptyString ->
  Forall (fun item => is_present (data item) = true) items' ->
  validate (new_DataModel now c items') = true.
Proof.
  intros Hc Hitems. unfold validate. cbn [code items new_DataModel].
  apply andb_true_intro. split.
  - destruct (String.eqb_spec c EmptyString); [contradiction | reflexivity].
  - apply forallb_forall. intros item Hin.
    rewrite Forall_forall in Hitems. apply Hitems, list_elem_of_In, Hin.
Qed.

Lemma first_fresh_is_code draws st c :
  Forall is_random draws -> first_fresh draws st = Some c -> is_code c /\ st !! c = None.
Proof.
  intros Hdraws Hc. apply first_fresh_Some in Hc as (Hnone & r & Hr & ->).
  split; [|exact Hnone]. apply generateCode_is_code.
  rewrite Forall_forall in Hdraws. apply Hdraws, list_elem_of_In, Hr.
Qed.

Lemma supplies_body data' multipleData values :
  supplies data' multipleData values ->
  data_missing data' multipleData = false /\
  body_items data' multipleData = map data_item values /\
  Forall (fun v => is_present v = true) values.
Proof.
  intros [(-> & Hne & Hpres)|(Harr & Hd & ->)].
  - split; [|split; [reflexivity | exact Hpres]].
    unfold data_missing. cbn. destruct values; [contradiction|].
    cbn. apply andb_false_r.
  - split; [|split].
    + unfold data_missing. rewrite Hd. reflexivity.
    + unfold body_items. rewrite Harr, andb_false_r. reflexivity.
    + repeat constructor. apply truthy_is_present, Hd.
Qed.

(** Plain values are written as they are. *)
Lemma stored_doc_values now c (values : list JsValue) :
  Forall (fun v => plain v = true) values ->
  stored_doc (new_DataModel now c (map data_item values))
  = new_DataModel now c (map data_item values).
Proof.
  intros H. apply stored_doc_plain. cbn [items new_DataModel].
  apply Forall_map. exact H.
Qed.

Lemma stored_doc_files now c (files' : list File) :
  stored_doc (new_DataModel now c (map file_item files'))
  = new_DataModel now c (map file_item files').
Proof. apply stored_doc_plain. cbn [items new_DataModel]. apply file_items_plain. Qed.

(** C5, as amended.  Structured ingestion answers 400 exactly when
    [data] is falsy (absent, [null], [false], [0] or the empty string) and
    [multipleData] is falsy or has length 0.  When [multipleData] is a
    non-empty array of plain values (no object without fields, no field
    name that starts with a dollar sign or holds a dot or the character
    of code 0) none of which is [null], each of them becomes one item,
    in order, with [isFile = false] and the value as its [data]; when it
    is not an array and [data] is truthy and plain, [data] becomes the
    one item.  In both cases the record is stored unverified under a
    fresh six-digit code, and the answer carries that code and the
    number of items. *)
Theorem generate_code_validation_and_items now draws data' multipleData st :
  Forall is_random draws ->
  (run (generate_code now draws data' multipleData) st
   = (Some (error_json 400 "Data is required"), st)
   <-> truthy data' = false /\
       (truthy multipleData = false \/ is_zero (js_length multipleData) = true)) /\
  (forall c values,
     first_fresh draws st = Some c ->
     (multipleData = JArr values /\ values <> [] /\
      Forall (fun v => is_present v = true) values)
     \/ (Array_isArray multipleData = false /\ truthy data' = true /\
         values = [data']) ->
     Forall (fun v => plain v = true) values ->
     exists dataEntry,
       run (generate_code now draws data' multipleData) st
       = (Some (json 200 (JObj [
            ("success", JBool true);
            ("code", JStr c);
            ("itemCount", JNum (Z.of_nat (length values)));
            ("message", JStr (Number_toString (Z.of_nat (length values))
               +:+ " data item(s) stored and code generated successfully"))])),
          <[c := dataEntry]> st)
       /\ is_code c /\ st !! c = None
       /\ code dataEntry = c
       /\ verified dataEntry = false
       /\ verifiedAt dataEntry = None
       /\ createdAt dataEntry = now
       /\ length (items dataEntry) = length values
       /\ (forall i v, values !! i = Some v ->
             exists item,
               items dataEntry !! i = Some item /\
               data item = v /\ isFile item = false /\
               fileName item = None /\ fileType item = None /\ fileSize item = None /\
               downloaded item = false /\ downloadedAt item = None)).
Proof.
  intros Hdraws. split.
  - rewrite run_generate_code. unfold data_missing.
    destruct (truthy data') eqn:Hd; cbn [negb andb].
    + split; [|intros [? _]; discriminate].
      destruct (first_fresh draws st) as [c|]; [|discriminate].
      rewrite run_store_generated. cbv zeta.
      destruct (validate _); [destruct (st !! c)|]; discriminate.
    + destruct (negb (truthy multipleData) || is_zero (js_length multipleData)) eqn:Hm.
      * split; [intros _|reflexivity]. split; [reflexivity|].
        apply orb_prop in Hm as [Hm|Hm]; [left | right; exact Hm].
        destruct (truthy multipleData); [discriminate | reflexivity].
      * split.
        -- destruct (first_fresh draws st) as [c|]; [|discriminate].
           rewrite run_store_generated. cbv zeta.
           destruct (validate _); [destruct (st !! c)|]; discriminate.
        -- intros [_ [Hm'|Hm']]; rewrite Hm' in Hm; [discriminate|].
           rewrite orb_true_r in Hm. discriminate.
  - intros c values Hc Hshape Hplain.
    destruct (first_fresh_is_code draws st c Hdraws Hc) as [Hcode Hnone].
    destruct (supplies_body data' multipleData values Hshape)
      as (Hmiss & Hitems & Hpres).
    exists (new_DataModel now c (map data_item values)).
    rewrite run_generate_code, Hmiss, Hc, run_store_generated. cbv zeta.
    rewrite Hitems, validate_new, Hnone;
      [|apply is_code_nonempty, Hcode | apply Forall_map; exact Hpres].
    rewrite (stored_doc_values now c values Hplain).
    split; [unfold generated_response; rewrite length_map; reflexivity|].
    split; [exact Hcode|]. split; [reflexivity|].
    do 4 (split; [reflexivity|]).
    split; [apply length_map|].
    intros i v Hv. exists (data_item v). split; [|repeat split].
    cbn [items new_DataModel]. rewrite list_lookup_fmap, Hv. reflexivity.
Qed.

Lemma generate_code_validation_and_items_witness :
  Forall is_random [2 ^ 1073] /\
  first_fresh [2 ^ 1073] sample_store = Some "550000" /\
  exists dataEntry,
    run (generate_code 5000 [2 ^ 1073] JUndefined (JArr [JStr "a"; JNum 7])) sample_store
    = (Some (generated_response "550000" [data_item (JStr "a"); data_item (JNum 7)]),
       <["550000" := dataEntry]> sample_store) /\
    (exists item, items dataEntry !! 1%nat = Some item /\ data item = JNum 7).
Proof.
  assert (Hr : Forall is_random [2 ^ 1073]).
  { constructor; [exact is_random_half | constructor]. }
  assert (Hc : first_fresh [2 ^ 1073] sample_store = Some "550000"%string).
  { vm_compute. reflexivity. }
  split; [exact Hr|]. split; [exact Hc|].
  destruct (generate_code_validation_and_items 5000 [2 ^ 1073] JUndefined
              (JArr [JStr "a"; JNum 7]) sample_store Hr) as [_ Hitems].
  destruct (Hitems "550000"%string [JStr "a"; JNum 7] Hc)
    as (dataEntry & Hrun & _ & _ & _ & _ & _ & _ & _ & Hvalues).
  - left. split; [reflexivity|]. split; [discriminate|]. repeat constructor.
  - repeat constructor.
  - exists dataEntry. split; [exact Hrun|].
    destruct (Hvalues 1%nat (JNum 7) eq_refl) as (item & Hitem & Hdata & _).
    exists item. split; assumption.
Defined.

(** C5 as stated fails on [{ data: 0 }]: a data value is present, and
    the guard of line 70 answers 400, "Data is required". *)
Lemma generate_code_rejects_zero :
  is_present (JNum 0) = true /\
  run (generate_code 5000 [2 ^ 1073] (JNum 0) JUndefined) sample_store
  = (Some (error_json 400 "Data is required"), sample_store).
Proof. split; reflexivity. Qed.

(** The guard treats [false] and the empty string like [0]. *)
Example generate_code_rejects_false :
  run (generate_code 5000 [2 ^ 1073] (JBool false) JUndefined) sample_store
  = (Some (error_json 400 "Data is required"), sample_store).
Proof. reflexivity. Qed.

(** [data] along with an empty [multipleData] passes the guard, and the
    record is stored with no item at all. *)
Example generate_code_empty_list_with_data :
  run (generate_code 5000 [2 ^ 1073] (JStr "x") (JArr [])) sample_store
  = (Some (generated_response "550000" []),
     <["550000" := new_DataModel 5000 "550000" []]> sample_store).
Proof. vm_compute. reflexivity. Qed.

(** A [multipleData] that is a non-empty string and no [data]: the guard
    passes, the one item has no [data], and [save()] throws. *)
Example generate_code_text_for_list :
  run (generate_code 5000 [2 ^ 1073] JUndefined (JStr "abc")) sample_store
  = (Some (error_json 500 "Failed to generate code"), sample_store).
Proof. vm_compute. reflexivity. Qed.

(** A [null] in the list fails the [required] validation of [data]. *)
Example generate_code_null_in_list :
  run (generate_code 5000 [2 ^ 1073] JUndefined (JArr [JStr "a"; JNull])) sample_store
  = (Some (error_json 500 "Failed to generate code"), sample_store).
Proof. vm_compute. reflexivity. Qed.

(** What is written of objects without fields: nothing, also when the
    object is left without fields only after its own fields are cut; as
    an element of an array the object stays. *)
Example minimize_examples :
  minimize (JObj []) = JUndefined /\
  minimize (JObj [("a", JObj [])]) = JUndefined /\
  minimize (JObj [("a", JNum 1); ("b", JObj [])]) = JObj [("a", JNum 1)] /\
  minimize (JArr [JObj []]) = JArr [JObj []] /\
  minimize (JObj [("a", JNull)]) = JObj [("a", JNull)].
Proof. repeat split. Qed.

(** An object without fields as [data] passes the guard and the
    validation and is answered with 200, but the item is stored without
    [data]; verification and download of that record then fail the
    validation of [save()]. *)
Example generate_code_empty_object :
  let st := <["550000" := new_DataModel 5000 "550000" [data_item JUndefined]]>
              sample_store in
  run (generate_code 5000 [2 ^ 1073] (JObj []) JUndefined) sample_store
  = (Some (generated_response "550000" [data_item (JObj [])]), st) /\
  run (verify_code 6000 (JStr "550000")) st
  = (Some (error_json 500 "Failed to verify code"), st) /\
  run (download 6000 "550000" "0") st
  = (Some (error_json 500 "Failed to download data"), st).
Proof. intros st. repeat split; vm_compute; reflexivity. Qed.

(** ** A rejected insert *)

(** A code already in use when the loop checks it is dropped and the
    next one drawn. *)
Lemma unique_code_loop_retry r draws k st :
  is_Some (st !! generateCode r) ->
  run (unique_code_loop (r :: draws) k) st = run (unique_code_loop draws k) st.
Proof.
  intros [doc Hdoc]. cbn [unique_code_loop run]. rewrite Hdoc. reflexivity.
Qed.

(** C3, as amended.  The one retry of an ingestion is in its uniqueness
    loop: a drawn code that the check finds in use is dropped and another
    is drawn.  When the insert itself is rejected because the code is in
    use by then, nothing is retried: the structured route answers 500,
    "Failed to generate code", the file route answers 500 with the
    duplicate-key message, and the store stays as it was, whether the
    request runs on its own or as one step of an interleaving. *)
Theorem duplicate_code_is_not_retried now c st :
  is_Some (st !! c) ->
  (forall r draws k,
     generateCode r = c ->
     run (unique_code_loop (r :: draws) k) st = run (unique_code_loop draws k) st) /\
  (forall data' multipleData,
     run (store_generated now data' multipleData c) st
     = (Some (error_json 500 "Failed to generate code"), st) /\
     step (store_generated now data' multipleData c) st
     = (Respond (error_json 500 "Failed to generate code"), st)) /\
  (forall files',
     c <> EmptyString ->
     run (store_uploaded now files' c) st
     = (Some (error_json 500 "Failed to upload file: E11000 duplicate key error"), st) /\
     step (store_uploaded now files' c) st
     = (Respond (error_json 500 "Failed to upload file: E11000 duplicate key error"), st)).
Proof.
  intros [doc Hdoc]. split; [|split].
  - intros r draws k <-. apply unique_code_loop_retry. rewrite Hdoc. eexists. reflexivity.
  - intros data' multipleData. split.
    + rewrite run_store_generated. cbv zeta.
      rewrite Hdoc. destruct (validate _); reflexivity.
    + unfold store_generated, save_new. cbv zeta.
      destruct (validate _); [|reflexivity].
      cbn [step code stored_doc new_DataModel]. rewrite Hdoc. reflexivity.
  - intros files' Hc.
    assert (Hval : validate (new_DataModel now c (map file_item files')) = true).
    { apply validate_new; [exact Hc|]. apply Forall_map, Forall_true. reflexivity. }
    split.
    + rewrite run_store_uploaded. cbv zeta. rewrite Hval, Hdoc. reflexivity.
    + unfold store_uploaded, save_new. cbv zeta. rewrite Hval.
      cbn [step code stored_doc new_DataModel]. rewrite Hdoc. reflexivity.
Qed.

Lemma duplicate_code_is_not_retried_witness :
  is_Some (sample_store !! "482913") /\
  run (store_generated 5000 (JStr "late") JUndefined "482913") sample_store
  = (Some (error_json 500 "Failed to generate code"), sample_store).
Proof.
  assert (H : is_Some (sample_store !! "482913")) by (eexists; reflexivity).
  split; [exact H|].
  destruct (duplicate_code_is_not_retried 5000 "482913" sample_store H) as (_ & Hgen & _).
  apply (Hgen (JStr "late") JUndefined).
Defined.

(** C3 as stated fails when two structured ingestions overlap: both draw
    550000, both find it unused, the first insert stores the record, the
    second is rejected as a duplicate, and that request is answered with
    status 500 instead of being retried. *)
Lemma generate_code_duplicate_surfaces :
  fst (interleave [0; 1; 0; 1]%nat
         [generate_code 5000 [2 ^ 1073] (JStr "first") JUndefined;
          generate_code 5001 [2 ^ 1073] (JStr "second") JUndefined] ∅)
  = [Respond (generated_response "550000" [data_item (JStr "first")]);
     Respond (error_json 500 "Failed to generate code")].
Proof. vm_compute. reflexivity. Qed.

(** The same two requests, one after the other: the second finds 550000
    in use.  With a second draw at hand it takes that one. *)
Example generate_code_in_turn :
  fst (run_all
         [generate_code 5000 [2 ^ 1073] (JStr "first") JUndefined;
          generate_code 5001 [2 ^ 1073; 0] (JStr "second") JUndefined] ∅)
  = [Some (generated_response "550000" [data_item (JStr "first")]);
     Some (generated_response "100000" [data_item (JStr "second")])].
Proof. vm_compute. reflexivity. Qed.

(** ** Downloads of one item by several requests *)



(** ** Downloads of one item under any schedule

    The record [dataEntry] is stored under [code'], its item at [index]
    has not been downloaded, and every request in flight is a download of
    that item. *)
Section OneItem.
Variables (code' itemId : string) (st0 : gmap string Data).
Variables (dataEntry : Data) (index : Z) (item : DataItem).
Hypothesis Hok : store_ok st0.
Hypothesis Hst : st0 !! code' = Some dataEntry.
Hypothesis Hparse : parseInt itemId = Some index.
Hypothesis Hrange : 0 <= index < Z.of_nat (length (items dataEntry)).
Hypothesis Hitem : items dataEntry !! Z.to_nat index = Some item.
Hypothesis Hfresh : downloaded item = false.





Let Hup : toUpperCase code' = code'.
Proof. destruct (store_ok_lookup st0 code' dataEntry Hok Hst) as (_ & H & _). exact H. Qed.

Let Hcode : code dataEntry = code'.
Proof. destruct (store_ok_lookup st0 code' dataEntry Hok Hst) as (H & _). exact H. Qed.












End OneItem.



(** ** Scenarios of the specification *)

(** Scenario C: item 0 downloaded, then asked for again. *)
Example scenario_C :
  fst (run_all [download 2000 "482913" "0"; download 2001 "482913" "0"] sample_store)
  = [Some (sent_response 2000 "482913" "0" 0 sample_record sample_text);
     Some (error_json 410 "This item has already been downloaded")].
Proof. vm_compute. reflexivity. Qed.

(** Scenario D: a code no record has. *)
Example scenario_D :
  run (verify_code 3000 (JStr "000000")) sample_store
  = (Some (error_json 404 "Invalid code"), sample_store) /\
  run (delete_data "000000") sample_store
  = (Some (error_json 404 "Data not found"), sample_store).
Proof. split; reflexivity. Qed.

(** A request without a code, and one whose code is a number. *)
Example verify_code_other_codes :
  run (verify_code 3000 JUndefined) sample_store
  = (Some (error_json 400 "Code is required"), sample_store) /\
  run (verify_code 3000 (JNum 482913)) sample_store
  = (Some (error_json 500 "Failed to verify code"), sample_store).
Proof. split; reflexivity. Qed.

(** A deleted record is gone, and its code is free again. *)
Example delete_then_get :
  let st := snd (run (delete_data "482913") sample_store) in
  st = ∅ /\ fst (run (get_data "482913") st) = Some (error_json 404 "Data not found").
Proof. vm_compute. split; reflexivity. Qed.

(** ** A file comes back as it was uploaded *)

Lemma base64_sextet_char (v : Z) :
  0 <= v < 64 ->
  base64_sextet (base64_char v) = Some v /\ Ascii.eqb (base64_char v) "=" = false.
Proof.
  intros Hv.
  assert (Hall : forallb (fun n =>
            match base64_sextet (base64_char (Z.of_nat n)) with
            | Some w => (w =? Z.of_nat n) && negb (Ascii.eqb (base64_char (Z.of_nat n)) "=")
            | None => false
            end) (seq 0 64) = true) by (vm_compute; reflexivity).
  rewrite forallb_forall in Hall.
  specialize (Hall (Z.to_nat v)). rewrite Z2Nat.id in Hall by lia.
  assert (Hin : In (Z.to_nat v) (seq 0 64)) by (apply in_seq; lia).
  specialize (Hall Hin).
  destruct (base64_sextet (base64_char v)) as [w|]; [|discriminate].
  apply andb_prop in Hall as [Hw Hne]. apply Z.eqb_eq in Hw. subst w.
  split; [reflexivity|]. destruct (Ascii.eqb _ _); [discriminate | reflexivity].
Qed.

Lemma byte_value_range (b : Byte.byte) : 0 <= byte_value b < 256.
Proof.
  unfold byte_value. pose proof (Byte.to_N_bounded b). lia.
Qed.

Lemma byte_of_value_value (b : Byte.byte) (v : Z) :
  v mod 256 = byte_value b -> byte_of_value v = b.
Proof.
  intros Hv. unfold byte_of_value. rewrite Hv. unfold byte_value.
  rewrite N2Z.id, Byte.of_to_N. reflexivity.
Qed.

Lemma base64_sextets_char (v : Z) (s : string) :
  0 <= v < 64 ->
  base64_sextets (String (base64_char v) s) = v :: base64_sextets s.
Proof.
  intros Hv. destruct (base64_sextet_char v Hv) as [Hs Hne].
  cbn [base64_sextets]. rewrite Hne, Hs. reflexivity.
Qed.

(** Decoding what [toString("base64")] wrote gives the bytes back. *)
Lemma base64_roundtrip (bs : list Byte.byte) :
  Buffer_from_base64 (JStr (Buffer_toString_base64 bs)) = Some bs.
Proof.
  unfold Buffer_from_base64. f_equal.
  assert (H : forall n (l : list Byte.byte), (length l < n)%nat ->
            bytes_of_sextets (base64_sextets (Buffer_toString_base64 l)) = l).
  { induction n as [|n IH]; intros l Hl; [lia|].
    destruct l as [|a [|b [|c rest]]].
    - reflexivity.
    - pose proof (byte_value_range a).
      cbn [Buffer_toString_base64]. cbv zeta.
      rewrite !base64_sextets_char by zdiv.
      cbn [base64_sextets bytes_of_sextets Ascii.eqb]. cbv zeta.
      f_equal. apply byte_of_value_value. zdiv.
    - pose proof (byte_value_range a). pose proof (byte_value_range b).
      cbn [Buffer_toString_base64]. cbv zeta.
      rewrite !base64_sextets_char by zdiv.
      cbn [base64_sextets bytes_of_sextets]. cbv zeta.
      f_equal; [|f_equal]; apply byte_of_value_value; zdiv.
    - pose proof (byte_value_range a). pose proof (byte_value_range b).
      pose proof (byte_value_range c).
      cbn [Buffer_toString_base64]. cbv zeta.
      rewrite !base64_sextets_char by zdiv.
      cbn [bytes_of_sextets]. cbv zeta.
      rewrite (IH rest) by (cbn [length] in Hl; lia).
      f_equal; [|f_equal; [|f_equal]]; apply byte_of_value_value; zdiv. }
  apply (H (S (length bs))). lia.
Qed.

(** The name and the type of a file may stand in a header. *)
Lemma file_item_attachment_ok (itemId : string) (file : File) :
  header_value_ok itemId = true ->
  header_value_ok (originalname file) = true ->
  header_value_ok (mimetype file) = true ->
  attachment_ok itemId (file_item file).
Proof.
  intros Hid Hname Htype. split; [exact Hid|]. intros _.
  split; intros s [= <-]; assumption.
Qed.

(** Scenario B: the download of an uploaded file sends the file's bytes,
    under its original name. *)
Lemma uploaded_file_comes_back now code' itemId index dataEntry file :
  header_value_ok code' = true ->
  attachment_ok itemId (file_item file) ->
  body (sent_response now code' itemId index dataEntry (file_item file))
  = ResBuffer (buffer file) /\
  (originalname file <> EmptyString ->
   In ("Content-Disposition",
       "attachment; filename=" +:+ dquote +:+ originalname file +:+ dquote)
      (headers (sent_response now code' itemId index dataEntry (file_item file)))).
Proof.
  intros Hcode Hatt. rewrite (sent_response_ok _ _ _ _ _ _ Hcode Hatt).
  cbn [isFile data mark_downloaded file_item file_response body headers].
  rewrite base64_roundtrip. split; [reflexivity|].
  intros Hname. right. left. cbn [fileName mark_downloaded file_item or_else].
  destruct (String.eqb_spec (originalname file) EmptyString); [contradiction | reflexivity].
Qed.

(** * More of the server *)

(** ** File ingestion *)

Lemma validate_new_files now c (files' : list File) :
  c <> EmptyString -> validate (new_DataModel now c (map file_item files')) = true.
Proof.
  intros Hc. apply validate_new; [exact Hc|].
  apply Forall_map, Forall_true. reflexivity.
Qed.

Lemma run_upload_file_fresh now draws f fs c st :
  Forall is_random draws ->
  first_fresh draws st = Some c ->
  run (upload_file now draws (Some (f :: fs))) st
  = (Some (uploaded_response c (map file_item (f :: fs))),
     <[c := new_DataModel now c (map file_item (f :: fs))]> st).
Proof.
  intros Hdraws Hc. destruct (first_fresh_is_code draws st c Hdraws Hc) as [Hcode Hnone].
  rewrite run_upload_file, Hc, run_store_uploaded. cbv zeta.
  rewrite validate_new_files by (apply is_code_nonempty, Hcode).
  rewrite Hnone, stored_doc_files. reflexivity.
Qed.

(** X1. The upload route answers 400 when no file comes with the
    request.  With at least one file and a draw whose code is free, it
    stores one record, unverified, under that six-digit code, with one
    item per file in the order of the upload: [isFile] true, not
    downloaded, name, type and size copied from the file, and as [data] a
    text that decodes to the file's bytes; the answer lists name, type
    and size of each file.  When every draw's code is in use there is no
    answer and the store is unchanged. *)
Theorem upload_file_stores_files now draws st :
  Forall is_random draws ->
  run (upload_file now draws None) st
  = (Some (error_json 400 "At least one file is required"), st) /\
  run (upload_file now draws (Some [])) st
  = (Some (error_json 400 "At least one file is required"), st) /\
  (forall f fs,
     first_fresh draws st = None ->
     run (upload_file now draws (Some (f :: fs))) st = (None, st)) /\
  (forall f fs c,
     first_fresh draws st = Some c ->
     exists dataEntry,
       run (upload_file now draws (Some (f :: fs))) st
       = (Some (json 200 (JObj [
            ("success", JBool true);
            ("code", JStr c);
            ("items", JArr (map file_info (f :: fs)));
            ("message", JStr (Number_toString (Z.of_nat (length (f :: fs)))
               +:+ " file(s) uploaded and code generated successfully"))])),
          <[c := dataEntry]> st) /\
       is_code c /\ st !! c = None /\
       code dataEntry = c /\ verified dataEntry = false /\
       verifiedAt dataEntry = None /\ createdAt dataEntry = now /\
       length (items dataEntry) = length (f :: fs) /\
       (forall i file, (f :: fs) !! i = Some file ->
          exists item,
            items dataEntry !! i = Some item /\
            isFile item = true /\ downloaded item = false /\
            downloadedAt item = None /\
            fileName item = Some (originalname file) /\
            fileType item = Some (mimetype file) /\
            fileSize item = Some (size file) /\
            Buffer_from_base64 (data item) = Some (buffer file))).
Proof.
  intros Hdraws. split; [reflexivity|]. split; [reflexivity|]. split.
  - intros f fs Hnone. rewrite run_upload_file, Hnone. reflexivity.
  - intros f fs c Hc.
    destruct (first_fresh_is_code draws st c Hdraws Hc) as [Hcode Hnone].
    exists (new_DataModel now c (map file_item (f :: fs))).
    split.
    { rewrite (run_upload_file_fresh now draws f fs c st Hdraws Hc).
      unfold uploaded_response. rewrite length_map, map_map. reflexivity. }
    do 6 (split; [assumption || reflexivity|]).
    split; [cbn [items new_DataModel]; apply length_map|].
    intros i file Hi. exists (file_item file).
    split; [cbn [items new_DataModel]; rewrite list_lookup_fmap, Hi; reflexivity|].
    do 6 (split; [reflexivity|]).
    cbn [data file_item]. apply base64_roundtrip.
Qed.

Lemma upload_file_stores_files_witness :
  Forall is_random [2 ^ 1073] /\
  first_fresh [2 ^ 1073] sample_store = Some "550000"%string /\
  exists dataEntry,
    snd (run (upload_file 7000 [2 ^ 1073]
                (Some [{| buffer := [Byte.x4d]; originalname := "m.bin";
                          mimetype := "application/x"; size := 1 |}])) sample_store)
    = <["550000" := dataEntry]> sample_store /\
    length (items dataEntry) = 1%nat.
Proof.
  assert (Hr : Forall is_random [2 ^ 1073]).
  { constructor; [exact is_random_half | constructor]. }
  assert (Hc : first_fresh [2 ^ 1073] sample_store = Some "550000"%string).
  { vm_compute. reflexivity. }
  split; [exact Hr|]. split; [exact Hc|].
  destruct (upload_file_stores_files 7000 [2 ^ 1073] sample_store Hr) as (_ & _ & _ & Hup).
  destruct (Hup {| buffer := [Byte.x4d]; originalname := "m.bin";
                   mimetype := "application/x"; size := 1 |} [] "550000"%string Hc)
    as (dataEntry & Hrun & _ & _ & _ & _ & _ & _ & Hlen & _).
  exists dataEntry. rewrite Hrun. split; [reflexivity | exact Hlen].
Defined.

(** ** From ingestion to download *)

Lemma store_ok_insert (st : gmap string Data) (c : string) (doc : Data) :
  store_ok st -> code doc = c -> is_code c -> Forall item_ok (items doc) ->
  store_ok (<[c := doc]> st).
Proof.
  intros Hok Hcode Hc Hitems k d [[<- <-]|[_ H]]%lookup_insert_Some.
  - auto.
  - exact (Hok _ _ H).
Qed.

Lemma file_items_ok (files' : list File) : Forall item_ok (map file_item files').
Proof.
  apply Forall_map, Forall_true. intros file. split; [reflexivity|].
  intros _. eexists. reflexivity.
Qed.

Lemma data_items_ok (values : list JsValue) :
  Forall (fun v => is_present v = true) values ->
  Forall item_ok (map data_item values).
Proof.
  intros H. apply Forall_map. eapply Forall_impl; [exact H|].
  intros v Hv. split; [exact Hv | discriminate].
Qed.

Lemma run_generate_code_fresh now draws data' multipleData values c st :
  Forall is_random draws ->
  first_fresh draws st = Some c ->
  supplies data' multipleData values ->
  Forall (fun v => plain v = true) values ->
  run (generate_code now draws data' multipleData) st
  = (Some (generated_response c (map data_item values)),
     <[c := new_DataModel now c (map data_item values)]> st).
Proof.
  intros Hdraws Hc Hsup Hplain.
  destruct (first_fresh_is_code draws st c Hdraws Hc) as [Hcode Hnone].
  destruct (supplies_body _ _ _ Hsup) as (Hmiss & Hitems & Hpres).
  rewrite run_generate_code, Hmiss, Hc, run_store_generated. cbv zeta.
  rewrite Hitems, validate_new, Hnone;
    [|apply is_code_nonempty, Hcode | apply Forall_map; exact Hpres].
  rewrite (stored_doc_values now c values Hplain). reflexivity.
Qed.

(** X2. A file uploaded and then downloaded comes back byte for byte:
    after an upload that got the code [c], and when the index text, the
    file's name and its type may stand in a header, the first download
    of item [i] answers 200 with the bytes of the [i]-th file, its type
    as content type (or application/octet-stream when the type is
    empty), its name as attachment name (or file-code-index when the
    name is empty) and its byte count as content length, and marks the
    item; a second download of that item answers 410. *)
Theorem upload_then_download now t t' draws files c st i file itemId :
  Forall is_random draws ->
  store_ok st ->
  first_fresh draws st = Some c ->
  files !! i = Some file ->
  parseInt itemId = Some (Z.of_nat i) ->
  header_value_ok itemId = true ->
  header_value_ok (originalname file) = true ->
  header_value_ok (mimetype file) = true ->
  exists st2,
    run (download t c itemId) (snd (run (upload_file now draws (Some files)) st))
    = (Some {| status := 200;
               headers := [
                 ("Content-Type",
                  or_else (Some (mimetype file)) "application/octet-stream");
                 ("Content-Disposition",
                  "attachment; filename=" +:+ dquote
                    +:+ or_else (Some (originalname file))
                          ("file-" +:+ c +:+ "-" +:+ itemId)
                    +:+ dquote);
                 ("Content-Length",
                  Number_toString (Z.of_nat (length (buffer file))))];
               body := ResBuffer (buffer file) |},
       st2) /\
    run (download t' c itemId) st2
    = (Some (error_json 410 "This item has already been downloaded"), st2).
Proof.
  intros Hdraws Hok Hc Hi Hparse Hid Hname Htype.
  destruct files as [|f fs]; [discriminate Hi|].
  destruct (first_fresh_is_code draws st c Hdraws Hc) as [Hcode Hnone].
  rewrite (run_upload_file_fresh now draws f fs c st Hdraws Hc). cbn [snd].
  set (doc := new_DataModel now c (map file_item (f :: fs))).
  assert (Hok1 : store_ok (<[c := doc]> st)).
  { apply store_ok_insert; [exact Hok | reflexivity | exact Hcode | apply file_items_ok]. }
  assert (Hitem : items doc !! i = Some (file_item file)).
  { unfold doc. cbn [items new_DataModel]. rewrite list_lookup_fmap, Hi. reflexivity. }
  assert (Hlen : (i < length (items doc))%nat) by (eapply lookup_lt_Some; exact Hitem).
  eexists. split.
  - rewrite (run_download_in_range t c itemId _ doc (Z.of_nat i) (file_item file));
      try assumption; [|apply lookup_insert_eq | lia | rewrite Nat2Z.id; exact Hitem].
    cbn [downloaded file_item].
    rewrite (sent_response_ok t c itemId (Z.of_nat i) doc (file_item file)
               (all_digits_header_value_ok c (proj2 Hcode))
               (file_item_attachment_ok itemId file Hid Hname Htype)).
    cbn [isFile data mark_downloaded file_item]. rewrite base64_roundtrip.
    reflexivity.
  - rewrite insert_insert_eq.
    set (doc' := set_item doc (Z.to_nat (Z.of_nat i)) (mark_downloaded t (file_item file))).
    assert (Hok2 : store_ok (<[c := doc']> st)).
    { apply store_ok_insert; [exact Hok | reflexivity | exact Hcode |].
      unfold doc'. cbn [items set_item]. apply Forall_insert; [apply file_items_ok|].
      split; [reflexivity | intros _; eexists; reflexivity]. }
    rewrite (run_download_in_range t' c itemId _ doc' (Z.of_nat i)
               (mark_downloaded t (file_item file)));
      try assumption; try reflexivity.
    + apply lookup_insert_eq.
    + unfold doc'. cbn [items set_item]. rewrite length_insert. lia.
    + unfold doc'. cbn [items set_item]. apply list_lookup_insert_eq.
      rewrite Nat2Z.id. exact Hlen.
Qed.

Lemma upload_then_download_witness :
  Forall is_random [2 ^ 1073] /\ store_ok sample_store /\
  exists res st2,
    run (download 8000 "550000" "1")
      (snd (run (upload_file 7000 [2 ^ 1073]
                   (Some [{| buffer := [Byte.x4d]; originalname := "m.bin";
                             mimetype := "application/x"; size := 1 |};
                          {| buffer := [Byte.x61; Byte.x6e]; originalname := "an.txt";
                             mimetype := "text/plain"; size := 2 |}])) sample_store))
    = (Some res, st2) /\
    body res = ResBuffer [Byte.x61; Byte.x6e].
Proof.
  assert (Hr : Forall is_random [2 ^ 1073]).
  { constructor; [exact is_random_half | constructor]. }
  assert (Hc : first_fresh [2 ^ 1073] sample_store = Some "550000"%string).
  { vm_compute. reflexivity. }
  split; [exact Hr|]. split; [exact sample_store_ok|].
  destruct (upload_then_download 7000 8000 8001 [2 ^ 1073]
              [{| buffer := [Byte.x4d]; originalname := "m.bin";
                  mimetype := "application/x"; size := 1 |};
               {| buffer := [Byte.x61; Byte.x6e]; originalname := "an.txt";
                  mimetype := "text/plain"; size := 2 |}]
              "550000" sample_store 1%nat
              {| buffer := [Byte.x61; Byte.x6e]; originalname := "an.txt";
                 mimetype := "text/plain"; size := 2 |} "1"
              Hr sample_store_ok Hc eq_refl eq_refl eq_refl eq_refl eq_refl)
    as (st2 & Hrun & _).
  eexists _, st2. split; [exact Hrun | reflexivity].
Defined.

(** X3. A value ingested and then downloaded comes back as it was: after
    a structured ingestion of plain values (no object without fields,
    no field name that starts with a dollar sign or holds a dot or the
    character of code 0), which got the code [c], and when the index
    text may stand in a header, the first download of item [i] answers
    200 with the JSON text of code, index, the [i]-th value supplied
    and the creation time, as an attachment named data-code-index.json;
    a second download of that item answers 410. *)
Theorem generate_then_download now t t' draws data' multipleData values c st i v itemId :
  Forall is_random draws ->
  store_ok st ->
  first_fresh draws st = Some c ->
  supplies data' multipleData values ->
  Forall (fun v => plain v = true) values ->
  values !! i = Some v ->
  parseInt itemId = Some (Z.of_nat i) ->
  header_value_ok itemId = true ->
  exists st2,
    run (download t c itemId)
      (snd (run (generate_code now draws data' multipleData) st))
    = (Some {| status := 200;
               headers := [
                 ("Content-Type", "application/json");
                 ("Content-Disposition",
                  "attachment; filename=" +:+ dquote +:+ "data-" +:+ c +:+ "-"
                    +:+ itemId +:+ ".json" +:+ dquote)];
               body := ResJsonText (JObj [
                 ("code", JStr c); ("itemId", JNum (Z.of_nat i));
                 ("data", v); ("createdAt", JDate now)]) |},
       st2) /\
    run (download t' c itemId) st2
    = (Some (error_json 410 "This item has already been downloaded"), st2).
Proof.
  intros Hdraws Hok Hc Hsup Hplain Hi Hparse Hid.
  destruct (first_fresh_is_code draws st c Hdraws Hc) as [Hcode Hnone].
  destruct (supplies_body _ _ _ Hsup) as (_ & _ & Hpres).
  rewrite (run_generate_code_fresh now draws data' multipleData values c st
             Hdraws Hc Hsup Hplain).
  cbn [snd]. set (doc := new_DataModel now c (map data_item values)).
  assert (Hok1 : store_ok (<[c := doc]> st)).
  { apply store_ok_insert; [exact Hok | reflexivity | exact Hcode |].
    apply data_items_ok, Hpres. }
  assert (Hitem : items doc !! i = Some (data_item v)).
  { unfold doc. cbn [items new_DataModel]. rewrite list_lookup_fmap, Hi. reflexivity. }
  assert (Hlen : (i < length (items doc))%nat) by (eapply lookup_lt_Some; exact Hitem).
  eexists. split.
  - rewrite (run_download_in_range t c itemId _ doc (Z.of_nat i) (data_item v));
      try assumption; [|apply lookup_insert_eq | lia | rewrite Nat2Z.id; exact Hitem].
    cbn [downloaded data_item].
    assert (Hatt : attachment_ok itemId (data_item v)).
    { split; [exact Hid|]. intros Hfile. discriminate Hfile. }
    rewrite (sent_response_ok t c itemId (Z.of_nat i) doc (data_item v)
               (all_digits_header_value_ok c (proj2 Hcode)) Hatt).
    reflexivity.
  - rewrite insert_insert_eq.
    set (doc' := set_item doc (Z.to_nat (Z.of_nat i)) (mark_downloaded t (data_item v))).
    assert (Hok2 : store_ok (<[c := doc']> st)).
    { apply store_ok_insert; [exact Hok | reflexivity | exact Hcode |].
      unfold doc'. cbn [items set_item]. apply Forall_insert; [apply data_items_ok, Hpres|].
      split; [|discriminate]. cbn [data mark_downloaded data_item].
      rewrite Forall_forall in Hpres. apply Hpres. eapply list_elem_of_lookup_2. exact Hi. }
    rewrite (run_download_in_range t' c itemId _ doc' (Z.of_nat i)
               (mark_downloaded t (data_item v)));
      try assumption; try reflexivity.
    + apply lookup_insert_eq.
    + unfold doc'. cbn [items set_item]. rewrite length_insert. lia.
    + unfold doc'. cbn [items set_item]. apply list_lookup_insert_eq.
      rewrite Nat2Z.id. exact Hlen.
Qed.

Lemma generate_then_download_witness :
  Forall is_random [2 ^ 1073] /\ store_ok sample_store /\
  supplies JUndefined (JArr [JStr "a"; JNum 7]) [JStr "a"; JNum 7] /\
  exists res st2,
    run (download 8000 "550000" "1")
      (snd (run (generate_code 7000 [2 ^ 1073] JUndefined (JArr [JStr "a"; JNum 7]))
              sample_store))
    = (Some res, st2) /\
    body res = ResJsonText (JObj [
      ("code", JStr "550000"); ("itemId", JNum 1);
      ("data", JNum 7); ("createdAt", JDate 7000)]).
Proof.
  assert (Hr : Forall is_random [2 ^ 1073]).
  { constructor; [exact is_random_half | constructor]. }
  assert (Hc : first_fresh [2 ^ 1073] sample_store = Some "550000"%string).
  { vm_compute. reflexivity. }
  assert (Hs : supplies JUndefined (JArr [JStr "a"; JNum 7]) [JStr "a"; JNum 7]).
  { left. split; [reflexivity|]. split; [discriminate | repeat constructor]. }
  split; [exact Hr|]. split; [exact sample_store_ok|]. split; [exact Hs|].
  destruct (generate_then_download 7000 8000 8001 [2 ^ 1073] JUndefined
              (JArr [JStr "a"; JNum 7]) [JStr "a"; JNum 7] "550000" sample_store
              1%nat (JNum 7) "1" Hr sample_store_ok Hc Hs
              ltac:(repeat constructor) eq_refl eq_refl eq_refl)
    as (st2 & Hrun & _).
  eexists _, st2. split; [exact Hrun | reflexivity].
Defined.

(** ** From ingestion to the metadata *)

(** X4. What was ingested is what the metadata read lists: after a
    structured ingestion of plain values (no object without fields, no
    field name that starts with a dollar sign or holds a dot or the
    character of code 0), which got the code [c], the read of [c]
    answers with that code, the number of values supplied,
    [verified: false], no [verifiedAt] and the creation time, lists at
    each index the value supplied there with
    [isFile] and [downloaded] false, and lists nothing past the last
    value; the store is left as it was. *)
Theorem generate_then_get_data now draws data' multipleData values c st :
  Forall is_random draws ->
  store_ok st ->
  first_fresh draws st = Some c ->
  supplies data' multipleData values ->
  Forall (fun v => plain v = true) values ->
  let st1 := snd (run (generate_code now draws data' multipleData) st) in
  exists res,
    run (get_data c) st1 = (Some res, st1) /\
    status res = 200 /\
    response_field "code" res = JStr c /\
    response_field "itemCount" res = JNum (Z.of_nat (length values)) /\
    response_field "verified" res = JBool false /\
    response_field "verifiedAt" res = JUndefined /\
    response_field "createdAt" res = JDate now /\
    (forall i, values !! i = None -> listed_item res i = None) /\
    (forall i v, values !! i = Some v ->
       exists info,
         listed_item res i = Some info /\
         field_of "id" info = JNum (Z.of_nat i) /\
         field_of "isFile" info = JBool false /\
         field_of "downloaded" info = JBool false /\
         field_of "data" info = v).
Proof.
  intros Hdraws Hok Hc Hsup Hplain st1.
  destruct (first_fresh_is_code draws st c Hdraws Hc) as [Hcode Hnone].
  destruct (supplies_body _ _ _ Hsup) as (_ & _ & Hpres).
  assert (Est : st1 = <[c := new_DataModel now c (map data_item values)]> st).
  { unfold st1.
    rewrite (run_generate_code_fresh now draws data' multipleData values c st
               Hdraws Hc Hsup Hplain). reflexivity. }
  assert (Hok1 : store_ok st1).
  { rewrite Est. apply store_ok_insert;
      [exact Hok | reflexivity | exact Hcode | apply data_items_ok, Hpres]. }
  exists (data_response (new_DataModel now c (map data_item values))).
  split.
  { apply run_get_data_found; [exact Hok1|]. rewrite Est. apply lookup_insert_eq. }
  split; [reflexivity|]. split; [reflexivity|].
  split; [cbn; rewrite length_imap, length_map; reflexivity|].
  do 3 (split; [reflexivity|]).
  split.
  - intros i Hi. rewrite listed_item_data_response. cbn [items new_DataModel].
    rewrite list_lookup_fmap, Hi. reflexivity.
  - intros i v Hi. exists (item_info i (data_item v)).
    rewrite listed_item_data_response. cbn [items new_DataModel].
    rewrite list_lookup_fmap, Hi. repeat split.
Qed.

Lemma generate_then_get_data_witness :
  Forall is_random [2 ^ 1073] /\ store_ok sample_store /\
  supplies (JStr "hello") JUndefined [JStr "hello"] /\
  exists res,
    fst (run (get_data "550000")
           (snd (run (generate_code 7000 [2 ^ 1073] (JStr "hello") JUndefined)
                   sample_store)))
    = Some res /\
    response_field "itemCount" res = JNum 1.
Proof.
  assert (Hr : Forall is_random [2 ^ 1073]).
  { constructor; [exact is_random_half | constructor]. }
  assert (Hc : first_fresh [2 ^ 1073] sample_store = Some "550000"%string).
  { vm_compute. reflexivity. }
  assert (Hs : supplies (JStr "hello") JUndefined [JStr "hello"]).
  { right. repeat split. }
  split; [exact Hr|]. split; [exact sample_store_ok|]. split; [exact Hs|].
  destruct (generate_then_get_data 7000 [2 ^ 1073] (JStr "hello") JUndefined
              [JStr "hello"] "550000" sample_store Hr sample_store_ok Hc Hs
              ltac:(repeat constructor))
    as (res & Hrun & _ & _ & Hcount & _).
  exists res. split; [rewrite Hrun; reflexivity | exact Hcount].
Defined.

(** X5. Uploaded files are listed without their content: after an upload
    that got the code [c], verification of [c] answers 200 and lists at
    each index the file's name, type and size with [isFile: true],
    [downloaded: false] and [data: null]; it stores the record as
    verified and leaves the items as they were, so the download of a
    file after verification still sends the file's bytes, when the index
    text, the file's name and its type may stand in a header. *)
Theorem upload_then_verify now t t' draws files c st :
  Forall is_random draws ->
  store_ok st ->
  first_fresh draws st = Some c ->
  files <> [] ->
  let st1 := snd (run (upload_file now draws (Some files)) st) in
  exists res st2,
    run (verify_code t (JStr c)) st1 = (Some res, st2) /\
    status res = 200 /\
    response_field "itemCount" res = JNum (Z.of_nat (length files)) /\
    response_field "verified" res = JBool true /\
    (forall i file, files !! i = Some file ->
       (exists info,
          listed_item res i = Some info /\
          field_of "isFile" info = JBool true /\
          field_of "fileName" info = JStr (originalname file) /\
          field_of "fileType" info = JStr (mimetype file) /\
          field_of "fileSize" info = JNum (size file) /\
          field_of "downloaded" info = JBool false /\
          field_of "data" info = JNull) /\
       (forall itemId,
          parseInt itemId = Some (Z.of_nat i) ->
          header_value_ok itemId = true ->
          header_value_ok (originalname file) = true ->
          header_value_ok (mimetype file) = true ->
          exists res' st3,
            run (download t' c itemId) st2 = (Some res', st3) /\
            status res' = 200 /\ body res' = ResBuffer (buffer file))).
Proof.
  intros Hdraws Hok Hc Hne st1.
  destruct files as [|f fs]; [contradiction|].
  destruct (first_fresh_is_code draws st c Hdraws Hc) as [Hcode Hnone].
  set (doc := new_DataModel now c (map file_item (f :: fs))).
  assert (Est : st1 = <[c := doc]> st).
  { unfold st1. rewrite (run_upload_file_fresh now draws f fs c st Hdraws Hc). reflexivity. }
  assert (Hok1 : store_ok st1).
  { rewrite Est. apply store_ok_insert;
      [exact Hok | reflexivity | exact Hcode | apply file_items_ok]. }
  assert (Hst1 : st1 !! c = Some doc) by (rewrite Est; apply lookup_insert_eq).
  exists (verify_response (mark_verified t doc)), (<[c := mark_verified t doc]> st1).
  split; [apply run_verify_code_found; assumption|].
  split; [reflexivity|].
  split; [cbn; rewrite length_imap, length_map; reflexivity|].
  split; [reflexivity|].
  intros i file Hi. split.
  - exists (item_info i (file_item file)).
    rewrite listed_item_verify_response. cbn [items mark_verified new_DataModel doc].
    rewrite list_lookup_fmap, Hi. repeat split.
  - intros itemId Hparse Hid Hname Htype.
    assert (Hok2 : store_ok (<[c := mark_verified t doc]> st1)).
    { apply store_ok_insert; [exact Hok1 | reflexivity | exact Hcode | apply file_items_ok]. }
    assert (Hitem : items (mark_verified t doc) !! i = Some (file_item file)).
    { cbn [items mark_verified new_DataModel doc]. rewrite list_lookup_fmap, Hi. reflexivity. }
    assert (Hlen : (i < length (items (mark_verified t doc)))%nat)
      by (eapply lookup_lt_Some; exact Hitem).
    eexists _, _. split.
    + rewrite (run_download_in_range t' c itemId _ (mark_verified t doc) (Z.of_nat i)
                 (file_item file));
        try assumption; [|apply lookup_insert_eq | lia | rewrite Nat2Z.id; exact Hitem].
      reflexivity.
    + rewrite (sent_response_ok t' c itemId (Z.of_nat i) (mark_verified t doc)
                 (file_item file) (all_digits_header_value_ok c (proj2 Hcode))
                 (file_item_attachment_ok itemId file Hid Hname Htype)).
      cbn [isFile data mark_downloaded file_item].
      rewrite base64_roundtrip. split; reflexivity.
Qed.

Lemma upload_then_verify_witness :
  Forall is_random [2 ^ 1073] /\ store_ok sample_store /\
  exists res st2,
    run (verify_code 8000 (JStr "550000"))
      (snd (run (upload_file 7000 [2 ^ 1073]
                   (Some [{| buffer := [Byte.x4d]; originalname := "m.bin";
                             mimetype := "application/x"; size := 1 |}])) sample_store))
    = (Some res, st2) /\
    response_field "itemCount" res = JNum 1.
Proof.
  assert (Hr : Forall is_random [2 ^ 1073]).
  { constructor; [exact is_random_half | constructor]. }
  assert (Hc : first_fresh [2 ^ 1073] sample_store = Some "550000"%string).
  { vm_compute. reflexivity. }
  split; [exact Hr|]. split; [exact sample_store_ok|].
  destruct (upload_then_verify 7000 8000 8001 [2 ^ 1073]
              [{| buffer := [Byte.x4d]; originalname := "m.bin";
                  mimetype := "application/x"; size := 1 |}]
              "550000" sample_store Hr sample_store_ok Hc ltac:(discriminate))
    as (res & st2 & Hrun & _ & Hcount & _).
  exists res, st2. split; [exact Hrun | exact Hcount].
Defined.

(** ** Deletion *)

(** X6. Deleting a stored record answers 200, removes that record and no
    other; from then on the metadata read, verification, download and a
    second deletion of its code all answer 404 and change nothing, and
    the uniqueness loop accepts the code again.  Deleting a code that no
    record has answers 404 and changes nothing. *)
Theorem delete_data_frees_code now c st :
  store_ok st ->
  (st !! c = None ->
     run (delete_data c) st = (Some (error_json 404 "Data not found"), st)) /\
  (forall dataEntry, st !! c = Some dataEntry ->
     let st1 := delete c st in
     run (delete_data c) st
     = (Some (json 200 (JObj [("success", JBool true);
                               ("message", JStr "Data deleted successfully")])), st1) /\
     (forall k, k <> c -> st1 !! k = st !! k) /\
     run (get_data c) st1 = (Some (error_json 404 "Data not found"), st1) /\
     run (verify_code now (JStr c)) st1 = (Some (error_json 404 "Invalid code"), st1) /\
     (forall itemId,
        run (download now c itemId) st1 = (Some (error_json 404 "Data not found"), st1)) /\
     run (delete_data c) st1 = (Some (error_json 404 "Data not found"), st1) /\
     (forall r draws, generateCode r = c -> first_fresh (r :: draws) st1 = Some c)).
Proof.
  intros Hok. split.
  - intros Hst. unfold delete_data. cbn [run].
    rewrite (store_ok_absent st c Hok Hst). reflexivity.
  - intros dataEntry Hst st1.
    destruct (store_ok_lookup st c dataEntry Hok Hst) as (_ & Hup & Hne & _).
    assert (Hgone : st1 !! toUpperCase c = None).
    { rewrite Hup. apply lookup_delete_eq. }
    split; [unfold delete_data; cbn [run]; rewrite Hup, Hst; reflexivity|].
    split; [intros k Hk; apply lookup_delete_ne; congruence|].
    split; [unfold get_data; cbn [run]; rewrite Hgone; reflexivity|].
    split.
    { unfold verify_code. cbn [truthy].
      destruct (String.eqb_spec c EmptyString) as [->|_]; [congruence|].
      cbn [negb run]. rewrite Hgone. reflexivity. }
    split; [intros itemId; apply run_download_absent, Hgone|].
    split; [unfold delete_data; cbn [run]; rewrite Hgone; reflexivity|].
    intros r draws <-. cbn [first_fresh]. rewrite Hup in Hgone. rewrite Hgone. reflexivity.
Qed.

Lemma delete_data_frees_code_witness :
  store_ok sample_store /\
  run (delete_data "482913") sample_store
  = (Some (json 200 (JObj [("success", JBool true);
                            ("message", JStr "Data deleted successfully")])),
     delete "482913" sample_store) /\
  run (get_data "482913") (delete "482913" sample_store)
  = (Some (error_json 404 "Data not found"), delete "482913" sample_store).
Proof.
  split; [exact sample_store_ok|].
  destruct (delete_data_frees_code 9000 "482913" sample_store sample_store_ok) as [_ H].
  destruct (H sample_record eq_refl) as (Hdel & _ & Hget & _).
  split; [exact Hdel | exact Hget].
Defined.

(** ** The metadata read *)

Lemma run_get_data_store c st : snd (run (get_data c) st) = st.
Proof. unfold get_data. cbn [run]. destruct (st !! toUpperCase c); reflexivity. Qed.



(** ** Downloads that find nothing *)

(** X8. A download answers 404 and changes nothing when no record has
    the code ("Data not found") and when the index is a number outside
    the record's items, negative or too large ("Item not found"). *)
Theorem download_not_found now code' itemId st :
  store_ok st ->
  (st !! code' = None ->
     run (download now code' itemId) st
     = (Some (error_json 404 "Data not found"), st)) /\
  (forall dataEntry index,
     st !! code' = Some dataEntry ->
     parseInt itemId = Some index ->
     index < 0 \/ Z.of_nat (length (items dataEntry)) <= index ->
     run (download now code' itemId) st
     = (Some (error_json 404 "Item not found"), st)).
Proof.
  intros Hok. split.
  - intros Hst. apply run_download_absent, store_ok_absent; assumption.
  - intros dataEntry index Hst Hparse Hout.
    apply (run_download_out_of_range now code' itemId st dataEntry index); try assumption.
    lia.
Qed.

Lemma download_not_found_witness :
  store_ok sample_store /\
  run (download 2000 "482913" "2") sample_store
  = (Some (error_json 404 "Item not found"), sample_store) /\
  run (download 2000 "482913" "-1") sample_store
  = (Some (error_json 404 "Item not found"), sample_store).
Proof.
  split; [exact sample_store_ok|].
  destruct (download_not_found 2000 "482913" "2" sample_store sample_store_ok) as [_ H2].
  destruct (download_not_found 2000 "482913" "-1" sample_store sample_store_ok) as [_ Hm].
  split.
  - apply (H2 sample_record 2); [reflexivity | reflexivity | right; simpl; lia].
  - apply (Hm sample_record (-1)); [reflexivity | reflexivity | left; lia].
Defined.

(** ** The index, written and read back *)













(** ** A request that fails changes nothing *)

(** X10. On a well-formed store, a request that is answered with a
    status other than 200 or not answered at all leaves the store
    exactly as it was, but for a download answered with status 500:
    validation errors, unknown codes, indices that find no item, items
    already downloaded and rejected inserts all come before any write.
    A download sets its headers after it has saved the item, so its
    status 500 can come after the write. *)
Theorem failed_request_changes_nothing now draws req st :
  store_ok st ->
  match fst (run (handler now draws req) st) with
  | Some res => status res <> 200 /\ (is_download req -> status res <> 500)
  | None => True
  end ->
  snd (run (handler now draws req) st) = st.
Proof.
  intros Hok.
  destruct req as [data' multipleData|files|code'|code'|code' itemId|code'|];
    cbn [handler].
  - rewrite run_generate_code. destruct (data_missing _ _); [reflexivity|].
    destruct (first_fresh draws st) as [c|]; [|reflexivity].
    rewrite run_store_generated. cbv zeta.
    destruct (validate _); [|reflexivity].
    destruct (st !! c); [reflexivity|]. cbn. intros [H _]. congruence.
  - rewrite run_upload_file. destruct files as [[|f fs]|]; try reflexivity.
    destruct (first_fresh draws st) as [c|]; [|reflexivity].
    rewrite run_store_uploaded. cbv zeta.
    destruct (validate _); [|reflexivity].
    destruct (st !! c); [reflexivity|]. cbn. intros [H _]. congruence.
  - unfold verify_code. destruct (negb (truthy code')); [reflexivity|].
    destruct code'; try reflexivity.
    cbn [run]. destruct (st !! toUpperCase s) as [doc|]; [|reflexivity].
    rewrite run_save_fetched. destruct (validate _); [|reflexivity].
    destruct (st !! code (mark_verified now doc)); [|reflexivity].
    cbn. intros [H _]. congruence.
  - intros _. apply run_get_data_store.
  - unfold download. cbn [run].
    destruct (st !! toUpperCase code') as [doc|] eqn:Hdoc; [|reflexivity].
    destruct (_ || _); [reflexivity|].
    destruct (array_get (items doc) (parseInt itemId)) as [item|] eqn:Hget; [|reflexivity].
    destruct (parseInt itemId) as [index|]; [|reflexivity].
    destruct (downloaded item) eqn:Hd; [reflexivity|].
    rewrite run_save_fetched. destruct (validate _); [|reflexivity].
    destruct (st !! code (set_item doc (Z.to_nat index) (mark_downloaded now item)));
      [|reflexivity].
    cbn [isFile data mark_downloaded].
    destruct (isFile item) eqn:Hfile.
    + assert (Hi : item_ok item).
      { destruct (Hok _ _ Hdoc) as (_ & _ & Hitems).
        cbn [array_get] in Hget. destruct (index <? 0); [discriminate|].
        eapply Forall_lookup_1; eassumption. }
      destruct Hi as [_ Hs]. destruct (Hs Hfile) as [s ->].
      cbn [Buffer_from_base64 run fst]. intros [H200 H500].
      match goal with
      | H : status (send ?r) <> 200 |- _ =>
          destruct (send_status r eq_refl) as [H'|H'];
            [contradiction | destruct (H500 I H')]
      end.
    + cbn [run fst]. intros [H200 H500].
      match goal with
      | H : status (send ?r) <> 200 |- _ =>
          destruct (send_status r eq_refl) as [H'|H'];
            [contradiction | destruct (H500 I H')]
      end.
  - unfold delete_data. cbn [run].
    destruct (st !! toUpperCase code'); [|reflexivity]. cbn. intros [H _]. congruence.
  - reflexivity.
Qed.

Lemma failed_request_changes_nothing_witness :
  store_ok sample_store /\
  fst (run (handler 2000 [] (GetDownload "482913" "5")) sample_store)
  = Some (error_json 404 "Item not found") /\
  snd (run (handler 2000 [] (GetDownload "482913" "5")) sample_store) = sample_store.
Proof.
  split; [exact sample_store_ok|]. split; [reflexivity|].
  apply (failed_request_changes_nothing 2000 [] (GetDownload "482913" "5") sample_store
           sample_store_ok).
  vm_compute. split; [intros H; discriminate H | intros _ H; discriminate H].
Defined.

(** ** A record only grows *)

Lemma item_grows_refl (item : DataItem) : item_grows item item.
Proof. do 5 (split; [reflexivity|]). intros H. split; [exact H | reflexivity]. Qed.

Lemma item_grows_trans (a b c : DataItem) :
  item_grows a b -> item_grows b c -> item_grows a c.
Proof.
  intros (H1 & H2 & H3 & H4 & H5 & H6) (K1 & K2 & K3 & K4 & K5 & K6).
  do 5 (split; [congruence|]).
  intros Ha. destruct (H6 Ha) as [Hb Hat]. destruct (K6 Hb) as [Hc Kat].
  split; congruence.
Qed.

Lemma items_grow_refl (l : list DataItem) : Forall2 item_grows l l.
Proof. induction l; constructor; [apply item_grows_refl | assumption]. Qed.

Lemma record_grows_refl (doc : Data) : record_grows doc doc.
Proof.
  split; [reflexivity|]. split; [reflexivity|]. split; [apply items_grow_refl | auto].
Qed.

Lemma record_grows_trans (a b c : Data) :
  record_grows a b -> record_grows b c -> record_grows a c.
Proof.
  intros (H1 & H2 & H3 & H4) (K1 & K2 & K3 & K4).
  repeat split; try congruence; [|auto].
  eapply Forall2_trans; [|exact H3|exact K3].
  intros x y z. apply item_grows_trans.
Qed.

Lemma serve_cons now draws req reqs st :
  serve ((now, draws, req) :: reqs) st
  = serve reqs (snd (run (handler now draws req) st)).
Proof.
  unfold serve. cbn [map run_all].
  destruct (run (handler now draws req) st) as [res st']. cbn [snd].
  destruct (run_all _ st') as [rest st'']. reflexivity.
Qed.

Lemma run_never_deletes (p : Proc) :
  forall st k, never_deletes p -> is_Some (st !! k) -> is_Some (snd (run p st) !! k).
Proof.
  induction p as [res| |c k IH|doc k IH|c upd k IH|c k IH]; intros st key Hp Hk;
    cbn [run snd never_deletes] in *; try exact Hk.
  - apply IH; [apply Hp | exact Hk].
  - destruct (st !! code doc) as [old|]; apply IH; try apply Hp; try exact Hk.
    apply lookup_insert_is_Some'. right. exact Hk.
  - destruct (st !! c) as [old|]; apply IH; try apply Hp; try exact Hk.
    apply lookup_insert_is_Some'. right. exact Hk.
  - destruct Hp.
Qed.

Lemma unique_code_loop_never_deletes draws k :
  (forall c, never_deletes (k c)) -> never_deletes (unique_code_loop draws k).
Proof.
  intros Hk. induction draws as [|r draws IH]; cbn [unique_code_loop never_deletes];
    [exact I|].
  intros [doc|]; [exact IH | apply Hk].
Qed.

Lemma handler_never_deletes now draws req :
  ~ is_deletion req -> never_deletes (handler now draws req).
Proof.
  intros Hreq.
  destruct req as [data' multipleData|files|code'|code'|code' itemId|code'|];
    cbn [handler].
  - unfold generate_code. destruct (data_missing _ _); [exact I|].
    apply unique_code_loop_never_deletes. intros c. unfold store_generated, save_new.
    destruct (validate _); [|exact I]. intros []; exact I.
  - unfold upload_file. destruct files as [[|f fs]|]; try exact I.
    apply unique_code_loop_never_deletes. intros c. unfold store_uploaded, save_new.
    destruct (validate _).
    + intros []; [exact I|]. unfold catch_upload_file.
      destruct (is_limit_file_size _); exact I.
    + unfold catch_upload_file. destruct (is_limit_file_size _); exact I.
  - unfold verify_code. destruct (negb (truthy code')); [exact I|].
    destruct code'; try exact I.
    intros [doc|]; [|exact I]. unfold save_fetched.
    destruct (validate _); [|exact I]. intros []; exact I.
  - unfold get_data. intros [doc|]; exact I.
  - unfold download. intros [doc|]; [|exact I].
    destruct (_ || _); [exact I|].
    destruct (array_get (items doc) (parseInt itemId)) as [item|]; [|exact I].
    destruct (parseInt itemId) as [index|]; [|exact I].
    destruct (downloaded item); [exact I|].
    unfold save_fetched. destruct (validate _); [|exact I].
    intros []; [|exact I]. cbn [isFile data mark_downloaded].
    destruct (isFile item); [destruct (Buffer_from_base64 (data item))|]; exact I.
  - destruct Hreq. exact I.
  - exact I.
Qed.

Lemma effect_record_grows (st st' : gmap string Data) (k : string) (old new : Data) :
  request_effect st st' ->
  st !! k = Some old -> st' !! k = Some new -> record_grows old new.
Proof.
  intros Heff Hold Hnew.
  destruct Heff as [|doc Hfree _ _ _|now doc Hdoc|now doc index item Hdoc Hitem Hd|k' _].
  - assert (old = new) as -> by congruence. apply record_grows_refl.
  - apply lookup_insert_Some in Hnew as [[<- _]|[_ Hnew]]; [congruence|].
    assert (old = new) as -> by congruence. apply record_grows_refl.
  - apply lookup_insert_Some in Hnew as [[<- <-]|[_ Hnew]].
    + assert (doc = old) as -> by congruence.
      split; [reflexivity|]. split; [reflexivity|]. split; [|reflexivity].
      apply items_grow_refl.
    + assert (old = new) as -> by congruence. apply record_grows_refl.
  - apply lookup_insert_Some in Hnew as [[<- <-]|[_ Hnew]].
    + assert (doc = old) as -> by congruence.
      split; [reflexivity|]. split; [reflexivity|]. split; [|auto].
      cbn [items set_item].
      rewrite <- (list_insert_id (items old) index item Hitem) at 1.
      apply Forall2_insert; [apply items_grow_refl|].
      do 5 (split; [reflexivity|]). rewrite Hd. discriminate.
    + assert (old = new) as -> by congruence. apply record_grows_refl.
  - apply lookup_delete_Some in Hnew as [_ Hnew].
    assert (old = new) as -> by congruence. apply record_grows_refl.
Qed.

(** X11. Short of deletion, a record only grows.  Whatever a request
    is, a record that is stored before and after it has the same code,
    creation time and items (payload, file name, type and size, number
    and order), a [verified] flag that has not gone back to false, and
    no item that has gone back to not downloaded or changed its download
    time.  A request other than a deletion removes no record, so this
    holds from the first to the last store of any sequence of requests
    without deletion. *)
Theorem record_only_grows st k old :
  keyed st ->
  st !! k = Some old ->
  (forall now draws req new,
     snd (run (handler now draws req) st) !! k = Some new -> record_grows old new) /\
  (forall reqs,
     Forall (fun '(_, _, req) => ~ is_deletion req) reqs ->
     exists new, serve reqs st !! k = Some new /\ record_grows old new).
Proof.
  intros Hkeyed Hold. split.
  - intros now draws req new Hnew.
    exact (effect_record_grows st _ k old new (handler_effect now draws req st Hkeyed)
             Hold Hnew).
  - intros reqs. revert st old Hkeyed Hold.
    induction reqs as [|[[now draws] req] reqs IH]; intros st old Hkeyed Hold Hreqs.
    + exists old. split; [exact Hold | apply record_grows_refl].
    + apply Forall_cons in Hreqs as [Hreq Hreqs]. rewrite serve_cons.
      destruct (run_never_deletes (handler now draws req) st k
                  (handler_never_deletes now draws req Hreq)) as [mid Hmid];
        [rewrite Hold; eexists; reflexivity|].
      pose proof (effect_record_grows st _ k old mid
                    (handler_effect now draws req st Hkeyed) Hold Hmid) as Hgrow.
      destruct (IH _ mid (run_keyed _ st Hkeyed) Hmid Hreqs) as (new & Hnew & Hgrow').
      exists new. split; [exact Hnew|]. eapply record_grows_trans; eassumption.
Qed.

Lemma record_only_grows_witness :
  keyed sample_store /\
  exists new,
    serve [(2000, [], GetDownload "482913" "0");
           (3000, [], PostVerifyCode (JStr "482913"));
           (4000, [], GetData "482913")] sample_store !! "482913" = Some new /\
    record_grows sample_record new.
Proof.
  assert (Hk : keyed sample_store).
  { apply (proj1 (proj1 (store_ok_split sample_store) sample_store_ok)). }
  split; [exact Hk|].
  destruct (record_only_grows sample_store "482913" sample_record Hk eq_refl) as [_ Hseq].
  apply Hseq. repeat constructor; intros [].
Defined.

(** ** Ingestion never overwrites *)

Lemma step_inserts_only (p : Proc) (st : gmap string Data) (k : string) (doc : Data) :
  inserts_only p -> st !! k = Some doc ->
  snd (step p st) !! k = Some doc /\ inserts_only (fst (step p st)).
Proof.
  intros Hp Hk.
  destruct p as [res| |c cont|new cont|c upd cont|c cont];
    cbn [step fst snd inserts_only] in *; try (split; [exact Hk | exact I]).
  - split; [exact Hk | apply Hp].
  - destruct (st !! code new) as [old|] eqn:Hnew; cbn [fst snd].
    + split; [exact Hk | apply Hp].
    + split; [|apply Hp]. rewrite lookup_insert_ne; [exact Hk | congruence].
  - destruct Hp.
  - destruct Hp.
Qed.

Lemma run_inserts_only (p : Proc) :
  forall st k doc, inserts_only p -> st !! k = Some doc -> snd (run p st) !! k = Some doc.
Proof.
  induction p as [res| |c cont IH|new cont IH|c upd cont IH|c cont IH];
    intros st k doc Hp Hk; cbn [run snd inserts_only] in *; try exact Hk.
  - apply IH; [apply Hp | exact Hk].
  - destruct (st !! code new) as [old|] eqn:Hnew; apply IH; try apply Hp; try exact Hk.
    rewrite lookup_insert_ne; [exact Hk | congruence].
  - destruct Hp.
  - destruct Hp.
Qed.

Lemma interleave_inserts_only (sched : list nat) :
  forall pool st k doc,
    Forall inserts_only pool -> st !! k = Some doc ->
    snd (interleave sched pool st) !! k = Some doc.
Proof.
  induction sched as [|i sched IH]; intros pool st k doc Hpool Hk; cbn [interleave];
    [exact Hk|].
  destruct (pool !! i) as [p|] eqn:Hi; [|apply IH; assumption].
  assert (Hp : inserts_only p) by (eapply Forall_lookup_1; eassumption).
  destruct (step_inserts_only p st k doc Hp Hk) as [Hk' Hp'].
  destruct (step p st) as [p' st']. cbn [fst snd] in *.
  apply IH; [|exact Hk']. apply Forall_insert; assumption.
Qed.

Lemma unique_code_loop_inserts_only draws k :
  (forall c, inserts_only (k c)) -> inserts_only (unique_code_loop draws k).
Proof.
  intros Hk. induction draws as [|r draws IH]; cbn [unique_code_loop inserts_only];
    [exact I|].
  intros [doc|]; [exact IH | apply Hk].
Qed.

Lemma handler_inserts_only now draws req :
  is_ingestion req -> inserts_only (handler now draws req).
Proof.
  intros Hreq.
  destruct req as [data' multipleData|files| | | | |]; try destruct Hreq; cbn [handler].
  - unfold generate_code. destruct (data_missing _ _); [exact I|].
    apply unique_code_loop_inserts_only. intros c. unfold store_generated, save_new.
    destruct (validate _); [|exact I]. intros []; exact I.
  - unfold upload_file. destruct files as [[|f fs]|]; try exact I.
    apply unique_code_loop_inserts_only. intros c. unfold store_uploaded, save_new.
    destruct (validate _).
    + intros []; [exact I|]. unfold catch_upload_file.
      destruct (is_limit_file_size _); exact I.
    + unfold catch_upload_file. destruct (is_limit_file_size _); exact I.
Qed.

(** X12. Ingestion never overwrites: whatever structured ingestions and
    uploads run, one after another or overlapping under any schedule,
    with whatever draws, also draws whose code is in use, every record
    stored before is stored afterwards, under the same code and
    unchanged. *)
Theorem ingestion_never_overwrites (reqs : list (Z * list Z * Request)) st k doc :
  Forall (fun '(_, _, req) => is_ingestion req) reqs ->
  st !! k = Some doc ->
  serve reqs st !! k = Some doc /\
  (forall sched,
     snd (interleave sched
            (map (fun '(now, draws, req) => handler now draws req) reqs) st) !! k
     = Some doc).
Proof.
  intros Hreqs Hk. split.
  - revert st Hk. induction reqs as [|[[now draws] req] reqs IH]; intros st Hk;
      [exact Hk|].
    apply Forall_cons in Hreqs as [Hreq Hreqs]. rewrite serve_cons.
    apply IH; [exact Hreqs|].
    apply run_inserts_only; [apply handler_inserts_only, Hreq | exact Hk].
  - intros sched. apply interleave_inserts_only; [|exact Hk].
    apply Forall_map. eapply Forall_impl; [exact Hreqs|].
    intros [[now draws] req] Hreq. apply handler_inserts_only, Hreq.
Qed.

Lemma ingestion_never_overwrites_witness :
  sample_store !! "482913" = Some sample_record /\
  snd (interleave [0; 1; 0; 1; 0; 1]%nat
         [generate_code 5000 [2 ^ 1073] (JStr "first") JUndefined;
          upload_file 5001 [2 ^ 1073] (Some [{| buffer := [Byte.x4d];
            originalname := "m.bin"; mimetype := "application/x"; size := 1 |}])]
         sample_store) !! "482913"
  = Some sample_record.
Proof.
  split; [reflexivity|].
  destruct (ingestion_never_overwrites
              [(5000, [2 ^ 1073], PostGenerateCode (JStr "first") JUndefined);
               (5001, [2 ^ 1073], PostUploadFile (Some [{| buffer := [Byte.x4d];
                  originalname := "m.bin"; mimetype := "application/x"; size := 1 |}]))]
              sample_store "482913" sample_record) as [_ H];
    [repeat constructor | reflexivity |].
  exact (H [0; 1; 0; 1; 0; 1]%nat).
Defined.

(** ** Lookups ignore the case of the code *)

Lemma upper_char_idem (c : ascii) : upper_char (upper_char c) = upper_char c.
Proof. destruct c as [[] [] [] [] [] [] [] []]; reflexivity. Qed.

Lemma toUpperCase_idem (s : string) : toUpperCase (toUpperCase s) = toUpperCase s.
Proof.
  induction s as [|c s IH]; cbn [toUpperCase]; [reflexivity|].
  rewrite upper_char_idem, IH. reflexivity.
Qed.

Lemma toUpperCase_empty (s : string) :
  String.eqb (toUpperCase s) EmptyString = String.eqb s EmptyString.
Proof. destruct s; reflexivity. Qed.

Lemma setHeaders_all (hs : list (string * string)) :
  snd (setHeaders hs) = forallb (fun h => header_value_ok (snd h)) hs.
Proof.
  induction hs as [|[name value] hs IH]; cbn [forallb setHeaders snd]; [reflexivity|].
  destruct (header_value_ok value); [|reflexivity].
  destruct (setHeaders hs) as [set ok]. exact IH.
Qed.

(** Status and body of what is sent depend on the header values only
    through their being accepted or not. *)
Lemma send_same (res res' : Response) :
  status res = status res' -> body res = body res' ->
  forallb (fun h => header_value_ok (snd h)) (headers res)
  = forallb (fun h => header_value_ok (snd h)) (headers res') ->
  status (send res) = status (send res') /\ body (send res) = body (send res').
Proof.
  intros Hstatus Hbody Hall. rewrite <- !setHeaders_all in Hall. unfold send.
  destruct (setHeaders (headers res)) as [set ok],
           (setHeaders (headers res')) as [set' ok'].
  cbn [snd] in Hall. subst ok'. destruct ok; cbn [status body]; split; auto.
Qed.

Lemma send_file_response_upper c itemId item fileBuffer :
  status (send (file_response (toUpperCase c) itemId item fileBuffer))
  = status (send (file_response c itemId item fileBuffer)) /\
  body (send (file_response (toUpperCase c) itemId item fileBuffer))
  = body (send (file_response c itemId item fileBuffer)).
Proof.
  apply send_same; [reflexivity | reflexivity|].
  unfold file_response. cbn [headers forallb snd]. f_equal. f_equal.
  rewrite !header_value_ok_app. f_equal. f_equal.
  destruct (fileName item) as [s|]; cbn [or_else];
    [destruct (String.eqb s EmptyString); [|reflexivity]|];
    rewrite !header_value_ok_app, toUpperCase_header_value_ok; reflexivity.
Qed.

Lemma send_data_download_response_upper c itemId index dataEntry item :
  status (send (data_download_response (toUpperCase c) itemId index dataEntry item))
  = status (send (data_download_response c itemId index dataEntry item)) /\
  body (send (data_download_response (toUpperCase c) itemId index dataEntry item))
  = body (send (data_download_response c itemId index dataEntry item)).
Proof.
  apply send_same; [reflexivity | reflexivity|].
  unfold data_download_response. cbn [headers forallb snd]. f_equal. f_equal.
  rewrite !header_value_ok_app, toUpperCase_header_value_ok. reflexivity.
Qed.

(** X13. A code and its upper-case form address the same record:
    verification, the metadata read and deletion answer the two alike
    and leave the same store; a download of the two leaves the same
    store and answers with the same status and the same body (the
    attachment name alone is built from the code as it was sent). *)
Theorem lookups_ignore_case now c itemId st :
  run (verify_code now (JStr (toUpperCase c))) st = run (verify_code now (JStr c)) st /\
  run (get_data (toUpperCase c)) st = run (get_data c) st /\
  run (delete_data (toUpperCase c)) st = run (delete_data c) st /\
  snd (run (download now (toUpperCase c) itemId) st)
  = snd (run (download now c itemId) st) /\
  status <$> fst (run (download now (toUpperCase c) itemId) st)
  = status <$> fst (run (download now c itemId) st) /\
  body <$> fst (run (download now (toUpperCase c) itemId) st)
  = body <$> fst (run (download now c itemId) st).
Proof.
  split; [|split; [|split]].
  - unfold verify_code. cbn [truthy]. rewrite toUpperCase_empty, toUpperCase_idem.
    reflexivity.
  - unfold get_data. rewrite toUpperCase_idem. reflexivity.
  - unfold delete_data. rewrite toUpperCase_idem. reflexivity.
  - unfold download. cbn [run]. rewrite toUpperCase_idem.
    destruct (st !! toUpperCase c) as [doc|]; [|repeat split].
    destruct (_ || _); [repeat split|].
    destruct (array_get (items doc) (parseInt itemId)) as [item|]; [|repeat split].
    destruct (parseInt itemId) as [index|]; [|repeat split].
    destruct (downloaded item); [repeat split|].
    rewrite !run_save_fetched. destruct (validate _); [|repeat split].
    destruct (st !! code (set_item doc (Z.to_nat index) (mark_downloaded now item)));
      [|repeat split].
    cbn [isFile data mark_downloaded].
    destruct (isFile item).
    + destruct (Buffer_from_base64 (data item)) as [fileBuffer|]; [|repeat split].
      cbn [run fst snd fmap option_fmap option_map].
      destruct (send_file_response_upper c itemId (mark_downloaded now item) fileBuffer)
        as [Hstatus Hbody].
      rewrite Hstatus, Hbody. repeat split.
    + cbn [run fst snd fmap option_fmap option_map].
      destruct (send_data_download_response_upper c itemId index
                  (set_item doc (Z.to_nat index) (mark_downloaded now item))
                  (mark_downloaded now item)) as [Hstatus Hbody].
      rewrite Hstatus, Hbody. repeat split.
Qed.

(** ** Downloads of two items *)

Lemma sent_response_set_item t c itemId index dataEntry item j other :
  sent_response t c itemId index (set_item dataEntry j other) item
  = sent_response t c itemId index dataEntry item.
Proof. unfold sent_response. destruct (isFile _); reflexivity. Qed.

Lemma set_item_commute dataEntry i j x y :
  i <> j ->
  set_item (set_item dataEntry i x) j y = set_item (set_item dataEntry j y) i x.
Proof.
  intros Hij. unfold set_item. cbn [code items verified createdAt verifiedAt].
  f_equal. apply list_insert_insert_ne. congruence.
Qed.

(** The store and the answer of a download of an item in range, in one
    formula. *)
Lemma run_download_item t c itemId st dataEntry index item :
  store_ok st ->
  st !! c = Some dataEntry ->
  parseInt itemId = Some (Z.of_nat index) ->
  items dataEntry !! index = Some item ->
  run (download t c itemId) st
  = if downloaded item
    then (Some (error_json 410 "This item has already been downloaded"), st)
    else (Some (sent_response t c itemId (Z.of_nat index) dataEntry item),
          <[c := set_item dataEntry index (mark_downloaded t item)]> st).
Proof.
  intros Hok Hst Hparse Hitem.
  assert (Hlen : (index < length (items dataEntry))%nat)
    by (eapply lookup_lt_Some; exact Hitem).
  assert (Hrun := run_download_in_range t c itemId st dataEntry (Z.of_nat index) item
                    Hok Hst Hparse ltac:(lia)).
  rewrite Nat2Z.id in Hrun. exact (Hrun Hitem).
Qed.

Lemma store_ok_after_download t c itemId st :
  store_ok st -> store_ok (snd (run (download t c itemId) st)).
Proof.
  intros Hok.
  apply (handler_store_ok t [] (GetDownload c itemId) st); [constructor | exact I | exact Hok].
Qed.

(** X14. Downloads of two different items of a record do not disturb
    each other: in either order each request gets the same answer, and
    the store they leave is the same. *)
Theorem downloads_of_two_items_commute t1 t2 c id1 id2 st dataEntry i j x y :
  store_ok st ->
  st !! c = Some dataEntry ->
  parseInt id1 = Some (Z.of_nat i) ->
  parseInt id2 = Some (Z.of_nat j) ->
  i <> j ->
  items dataEntry !! i = Some x ->
  items dataEntry !! j = Some y ->
  let first := run (download t1 c id1) st in
  let first_then := run (download t2 c id2) (snd first) in
  let second := run (download t2 c id2) st in
  let second_then := run (download t1 c id1) (snd second) in
  fst first = fst second_then /\
  fst second = fst first_then /\
  snd first_then = snd second_then.
Proof.
  intros Hok Hst Hp1 Hp2 Hij Hx Hy first first_then second second_then.
  assert (Hfirst := run_download_item t1 c id1 st dataEntry i x Hok Hst Hp1 Hx).
  assert (Hsecond := run_download_item t2 c id2 st dataEntry j y Hok Hst Hp2 Hy).
  assert (Hok1 : store_ok (snd first)) by apply store_ok_after_download, Hok.
  assert (Hok2 : store_ok (snd second)) by apply store_ok_after_download, Hok.
  unfold first_then, second_then. fold first in Hfirst. fold second in Hsecond.
  destruct (downloaded x) eqn:Hdx; destruct (downloaded y) eqn:Hdy;
    rewrite Hfirst in *; rewrite Hsecond in *; cbn [fst snd] in *.
  - rewrite (run_download_item t2 c id2 st dataEntry j y Hok Hst Hp2 Hy), Hdy.
    rewrite (run_download_item t1 c id1 st dataEntry i x Hok Hst Hp1 Hx), Hdx.
    repeat split.
  - rewrite (run_download_item t2 c id2 st dataEntry j y Hok Hst Hp2 Hy), Hdy.
    rewrite (run_download_item t1 c id1 _ (set_item dataEntry j (mark_downloaded t2 y))
               i x Hok2 (lookup_insert_eq _ _ _) Hp1);
      [|cbn [items set_item]; rewrite list_lookup_insert_ne by congruence; exact Hx].
    rewrite Hdx. repeat split.
  - rewrite (run_download_item t2 c id2 _ (set_item dataEntry i (mark_downloaded t1 x))
               j y Hok1 (lookup_insert_eq _ _ _) Hp2);
      [|cbn [items set_item]; rewrite list_lookup_insert_ne by congruence; exact Hy].
    rewrite (run_download_item t1 c id1 st dataEntry i x Hok Hst Hp1 Hx), Hdx, Hdy.
    repeat split.
  - rewrite (run_download_item t2 c id2 _ (set_item dataEntry i (mark_downloaded t1 x))
               j y Hok1 (lookup_insert_eq _ _ _) Hp2);
      [|cbn [items set_item]; rewrite list_lookup_insert_ne by congruence; exact Hy].
    rewrite (run_download_item t1 c id1 _ (set_item dataEntry j (mark_downloaded t2 y))
               i x Hok2 (lookup_insert_eq _ _ _) Hp1);
      [|cbn [items set_item]; rewrite list_lookup_insert_ne by congruence; exact Hx].
    rewrite Hdx, Hdy, !sent_response_set_item, !insert_insert_eq. cbn [fst snd].
    split; [reflexivity|]. split; [reflexivity|].
    f_equal. apply set_item_commute. exact Hij.
Qed.

Lemma downloads_of_two_items_commute_witness :
  store_ok sample_store /\
  snd (run (download 2001 "482913" "1") (snd (run (download 2000 "482913" "0") sample_store)))
  = snd (run (download 2000 "482913" "0") (snd (run (download 2001 "482913" "1") sample_store))).
Proof.
  split; [exact sample_store_ok|].
  assert (Hne : 0%nat <> 1%nat) by discriminate.
  destruct (downloads_of_two_items_commute 2000 2001 "482913" "0" "1" sample_store
              sample_record 0%nat 1%nat sample_text sample_file sample_store_ok
              eq_refl eq_refl eq_refl Hne eq_refl eq_refl) as (_ & _ & H).
  exact H.
Defined.

(** ** The store stays well-formed *)

(** X15. A well-formed store stays well-formed under requests whose
    values to store are plain: the empty store is well-formed, and
    whatever requests run on a well-formed store, one after another or
    overlapping under any schedule, with draws that [Math.random()] can
    return and with structured ingestions of plain values only (no
    object without fields, no field name that starts with a dollar sign
    or holds a dot or the character of code 0), leave a store in which
    every record is stored under its own code, that code is six digits (so upper-casing
    leaves it alone), every item has a payload that is neither [null]
    nor [undefined], and the payload of every file item is a text. *)
Theorem store_stays_well_formed (reqs : list (Z * list Z * Request)) st :
  Forall (fun '(_, draws, req) => Forall is_random draws /\ plain_request req) reqs ->
  store_ok st ->
  store_ok ∅ /\
  store_ok (serve reqs st) /\
  (forall sched,
     store_ok (snd (interleave sched
                      (map (fun '(now, draws, req) => handler now draws req) reqs) st))) /\
  (forall k doc, serve reqs st !! k = Some doc ->
     code doc = k /\ String.length k = 6%nat /\ all_digits k = true /\
     toUpperCase k = k /\
     Forall (fun item => is_present (data item) = true /\
                         (isFile item = true -> exists s, data item = JStr s))
            (items doc)).
Proof.
  intros Hdraws Hok.
  assert (Hserve : store_ok (serve reqs st)).
  { revert st Hok. induction reqs as [|[[now draws] req] reqs IH]; intros st Hok;
      [exact Hok|].
    apply Forall_cons in Hdraws as [[Hd Hreq] Hdraws]. rewrite serve_cons.
    apply IH; [exact Hdraws|]. apply handler_store_ok; assumption. }
  split; [exact store_ok_empty|]. split; [exact Hserve|]. split.
  - intros sched. apply interleave_store_ok; assumption.
  - intros k doc Hk. destruct (Hserve k doc Hk) as (Hcode & [Hlen Hdig] & Hitems).
    repeat split; try assumption. apply toUpperCase_digits, Hdig.
Qed.

Lemma store_stays_well_formed_witness :
  store_ok sample_store /\
  store_ok (serve [(5000, [2 ^ 1073], PostGenerateCode (JStr "first") JUndefined);
                   (5001, [], DeleteData "482913")] sample_store).
Proof.
  split; [exact sample_store_ok|].
  destruct (store_stays_well_formed
              [(5000, [2 ^ 1073], PostGenerateCode (JStr "first") JUndefined);
               (5001, [], DeleteData "482913")] sample_store) as (_ & H & _).
  - constructor.
    + split; [constructor; [exact is_random_half | constructor]|].
      repeat constructor.
    + constructor; [|constructor]. split; [constructor | exact I].
  - exact sample_store_ok.
  - exact H.
Defined.

(** ** Verification and download *)




(** A verification and a download that overlap both leave their mark:
    each write sets its own paths of the record the store holds. *)
Example verify_and_download_overlap :
  snd (interleave [0; 1; 0; 1]%nat
         [verify_code 3000 (JStr "482913"); download 2000 "482913" "0"] sample_store)
    !! "482913"
  = Some (mark_verified 3000 (set_item sample_record 0 (mark_downloaded 2000 sample_text))).
Proof. vm_compute. reflexivity. Qed.

(** ** Verifications of one code under any schedule

    The record [dataEntry] is stored under [code'], and every request in
    flight is a verification of that code. *)
Section OneCode.
Variables (code' : string) (st0 : gmap string Data) (dataEntry : Data).
Hypothesis Hok : store_ok st0.
Hypothesis Hst : st0 !! code' = Some dataEntry.














End OneCode.


